(** * PI Lead Monitor: the paged lead fetcher and the client-side refinement

    A shallow embedding of the dashboard pages of the repository and of
    [src/lib/supabaseClient.ts].  The repository holds four near-duplicate
    page variants; each gets a module of its own:

    - [Basic]   : the page of [part_001] (fetch with fallback, search only);
    - [Sorted]  : the first page of [part_000] (adds the null client guard
                  and the client-side sort);
    - [Status]  : the second page of [part_000] (adds the status filter);
    - [Compact] : the third page of [part_000] (view only, sentinels of its
                  own in the sort).

    Conventions.  The numbers the pages count and compare with (scores,
    counts, page numbers, epoch milliseconds) are integers of [Z]; the
    values the sort comparators compute are [jsnum]s: a finite value, one of
    the two infinities, or NaN.  A JavaScript string is a [string] of ASCII
    characters; [toLowerCase] and [trim] are the ASCII restrictions of the
    built-ins.  [null] and [undefined] are [None].  An [async] function is a
    tree of awaited queries, run against a remote service that maps each
    query to its response. *)

From Stdlib Require Import ZArith List String Ascii Bool Lia.
From Stdlib Require Import DecimalString.
From Stdlib Require Import Permutation Sorted.
Import ListNotations.

Local Open Scope string_scope.
Local Open Scope Z_scope.

(* ================================================================== *)
(** ** JavaScript numbers *)

Inductive jsnum : Type :=
| NaN
| NegInf
| Fin (z : Z)
| PosInf.

(** [a - b] on numbers (IEEE: opposite infinities give an infinity, equal
    infinities give NaN, NaN is absorbing). *)
Definition jsub (a b : jsnum) : jsnum :=
  match a, b with
  | NaN, _ | _, NaN => NaN
  | Fin x, Fin y => Fin (x - y)
  | Fin _, NegInf => PosInf
  | Fin _, PosInf => NegInf
  | NegInf, NegInf => NaN
  | NegInf, _ => NegInf
  | PosInf, PosInf => NaN
  | PosInf, _ => PosInf
  end.

(** [v > 0], as [Array.prototype.sort] tests the value of its comparator
    (a NaN result counts as [+0]). *)
Definition isPositive (v : jsnum) : bool :=
  match v with
  | Fin z => 0 <? z
  | PosInf => true
  | NaN | NegInf => false
  end.

(** The order of the non-NaN numbers. *)
Definition jle (a b : jsnum) : Prop :=
  match a, b with
  | NaN, _ | _, NaN => False
  | NegInf, _ => True
  | _, PosInf => True
  | Fin x, Fin y => x <= y
  | _, _ => False
  end.

Definition isNaN (a : jsnum) : bool :=
  match a with NaN => true | _ => false end.

(* ================================================================== *)
(** ** JavaScript strings and arrays *)

(** [x ?? d] *)
Definition nullish {A : Type} (x : option A) (d : A) : A :=
  match x with
  | Some a => a
  | None => d
  end.

Infix "??" := nullish (at level 45, left associativity).

(** [!s] for a string: only the empty string is falsy. *)
Definition isEmpty (s : string) : bool :=
  match s with
  | EmptyString => true
  | String _ _ => false
  end.

(** [!x] for a [string | null | undefined]. *)
Definition falsy (x : option string) : bool :=
  match x with
  | None => true
  | Some s => isEmpty s
  end.

(** White space of [String.prototype.trim], within ASCII: TAB, LF, VT, FF,
    CR and SPACE. *)
Definition isSpace (c : ascii) : bool :=
  let n := nat_of_ascii c in
  ((9 <=? n) && (n <=? 13))%nat || (n =? 32)%nat.

Fixpoint trimStart (s : string) : string :=
  match s with
  | EmptyString => EmptyString
  | String c s' => if isSpace c then trimStart s' else s
  end.

Fixpoint trimEnd (s : string) : string :=
  match s with
  | EmptyString => EmptyString
  | String c s' =>
      let t := trimEnd s' in
      if isSpace c && isEmpty t then EmptyString else String c t
  end.

Definition trim (s : string) : string := trimEnd (trimStart s).

Definition lowerChar (c : ascii) : ascii :=
  let n := nat_of_ascii c in
  if ((65 <=? n) && (n <=? 90))%nat then ascii_of_nat (n + 32) else c.

Fixpoint toLowerCase (s : string) : string :=
  match s with
  | EmptyString => EmptyString
  | String c s' => String (lowerChar c) (toLowerCase s')
  end.

(** [hay.includes(s)] *)
Fixpoint includes (hay s : string) : bool :=
  prefix s hay ||
  match hay with
  | EmptyString => false
  | String _ hay' => includes hay' s
  end.

(** [xs.join(sep)] *)
Fixpoint join (sep : string) (xs : list string) : string :=
  match xs with
  | [] => EmptyString
  | [x] => x
  | x :: xs' => x ++ sep ++ join sep xs'
  end.

(** A string made of white space only (the empty one included). *)
Fixpoint allSpace (s : string) : bool :=
  match s with
  | EmptyString => true
  | String c s' => isSpace c && allSpace s'
  end.

(* ================================================================== *)
(** ** The lead record *)

Module Row.
Record t : Type := mk {
  id : string;
  url : option string;
  title : option string;
  publisher_domain : option string;
  people : option (list string);
  severity : option string;
  case_type : option string;
  lead_score : option Z;
  triage_reasons : option (list string);
  triaged_at : option string;
  ingested_at : option string;
  status : option string
}.
End Row.

Definition PAGE_SIZE : Z := 50.

(* ================================================================== *)
(** ** The query builder of the remote service

    A query is what the builder has accumulated when it is awaited: the
    resource, the selected columns and count mode, the order, the range and
    the filter predicates in the order they were added. *)

Inductive Filter : Type :=
| Gte (column : string) (value : Z)
| Eq (column : string) (value : string)
| NotIsNull (column : string).

Record Query : Type := mkQuery {
  q_from : string;
  q_select : string;
  q_count : option string;
  q_order : list (string * bool);      (* column, ascending *)
  q_range : option (Z * Z);            (* inclusive bounds *)
  q_filters : list Filter
}.

Record SupabaseClient : Type := createClient {
  supabaseUrl : string;
  supabaseKey : string
}.

Module Builder.
Definition from (_ : SupabaseClient) (table : string) : Query :=
  mkQuery table "*" None [] None [].

Definition select (columns : string) (count : option string) (q : Query) : Query :=
  mkQuery (q_from q) columns count (q_order q) (q_range q) (q_filters q).

Definition order (column : string) (ascending : bool) (q : Query) : Query :=
  mkQuery (q_from q) (q_select q) (q_count q) (q_order q ++ [(column, ascending)])
          (q_range q) (q_filters q).

Definition range (lo hi : Z) (q : Query) : Query :=
  mkQuery (q_from q) (q_select q) (q_count q) (q_order q) (Some (lo, hi)) (q_filters q).

Definition addFilter (f : Filter) (q : Query) : Query :=
  mkQuery (q_from q) (q_select q) (q_count q) (q_order q) (q_range q) (q_filters q ++ [f]).

(** [.gte(column, value)], [.eq(column, value)] and [.not(column, "is", null)] *)
Definition gte (column : string) (value : Z) : Query -> Query :=
  addFilter (Gte column value).
Definition eq (column value : string) : Query -> Query :=
  addFilter (Eq column value).
Definition not_is_null (column : string) : Query -> Query :=
  addFilter (NotIsNull column).
End Builder.

(** Method chaining: [q.f(x)] is [q |> f x]. *)
Notation "q |> f" := (f q) (at level 65, left associativity, only parsing).

(** What an awaited query resolves to. *)
Record PostgrestError : Type := mkError { message : string }.

Module Response.
Record t : Type := mk {
  error : option PostgrestError;
  data : option (list Row.t);
  count : option Z
}.
End Response.

(** The remote service, as seen during one fetch. *)
Definition Remote : Type := Query -> Response.t.

(* ================================================================== *)
(** ** Asynchronous code

    An [async] function is a tree: it returns, throws an [Error] with a
    message, or awaits a query and continues with the response. *)

Inductive Prog (A : Type) : Type :=
| Ret (a : A)
| Throw (msg : string)
| Await (q : Query) (k : Response.t -> Prog A).

Arguments Ret {A} a.
Arguments Throw {A} msg.
Arguments Await {A} q k.

(** [try { x = m; ok x } catch (e) { handler e.message }] where neither
    branch awaits. *)
Fixpoint tryCatch {A B : Type} (m : Prog A) (ok : A -> B) (handler : string -> B) : Prog B :=
  match m with
  | Ret a => Ret (ok a)
  | Throw msg => Ret (handler msg)
  | Await q k => Await q (fun r => tryCatch (k r) ok handler)
  end.

(** The outcome of a run: a value or the message of the thrown error. *)
Inductive Outcome (A : Type) : Type :=
| Returned (a : A)
| Thrown (msg : string).

Arguments Returned {A} a.
Arguments Thrown {A} msg.

(** Running a program against a remote service: the queries issued, in
    order, and the outcome. *)
Fixpoint run {A : Type} (remote : Remote) (m : Prog A) : list Query * Outcome A :=
  match m with
  | Ret a => ([], Returned a)
  | Throw msg => ([], Thrown msg)
  | Await q k =>
      let (qs, o) := run remote (k (remote q)) in (q :: qs, o)
  end.

Definition issued {A : Type} (remote : Remote) (m : Prog A) : list Query :=
  fst (run remote m).

Definition outcome {A : Type} (remote : Remote) (m : Prog A) : Outcome A :=
  snd (run remote m).

(* ================================================================== *)
(** ** [src/lib/supabaseClient.ts] *)

Module SupabaseClientModule.

(** What the module reads from its surroundings: whether [window] is
    defined and the two variables of [process.env]. *)
Record Env : Type := mkEnv {
  hasWindow : bool;
  NEXT_PUBLIC_SUPABASE_URL : option string;
  NEXT_PUBLIC_SUPABASE_ANON_KEY : option string
}.

(** [let _client: SupabaseClient | null = null] *)
Definition ClientCell : Type := option SupabaseClient.
Definition _client : ClientCell := None.

(** [getSupabase()]: the value returned and the new content of the cell. *)
Definition getSupabase (env : Env) (cell : ClientCell)
  : option SupabaseClient * ClientCell :=
  if negb (hasWindow env) then (None, cell)
  else
    match cell with
    | Some c => (Some c, cell)
    | None =>
        let url := NEXT_PUBLIC_SUPABASE_URL env in
        let anon := NEXT_PUBLIC_SUPABASE_ANON_KEY env in
        if falsy url || falsy anon then (None, cell)
        else
          (* both are strings here, by the test above *)
          let c := createClient (url ?? "") (anon ?? "") in
          (Some c, Some c)
    end.

End SupabaseClientModule.
Import SupabaseClientModule.

(* ================================================================== *)
(** ** The fetch result of the pages with a fallback *)

Inductive Source : Type := v_triage_live | articles.

Module Fetched.
Record t : Type := mk {
  data : list Row.t;
  count : Z;
  source : Source
}.
End Fetched.

Definition selectCols : string :=
  "id,url,title,publisher_domain,people,severity,case_type,lead_score,triage_reasons,triaged_at,ingested_at,status".

(** [severity !== "all"] *)
Definition notAll (s : string) : bool := negb (s =? "all")%string.

(** [Math.ceil(count / PAGE_SIZE)] *)
Definition ceilPages (count : Z) : Z := - ((- count) / PAGE_SIZE).

(** The search of the pages, from the needle [s] on: [!s ? rows :
    rows.filter(r => hay(r).includes(s))]. *)
Definition searchRows (hay : Row.t -> string) (s : string) (rows : list Row.t) : list Row.t :=
  if isEmpty s then rows else filter (fun r => includes (hay r) s) rows.

(** [[...l].sort(cmp)]: the sort is stable, an element moves behind those
    it compares greater than.  The result is the one every conforming
    engine gives when [cmp] is a consistent comparator.  With a comparator
    that is not (a comparison that is NaN, from a time stamp that is no
    date) the order an engine gives is its own; the properties of the sort
    below are stated where the comparator is consistent, or use only that
    the output is a rearrangement of the input. *)
Fixpoint insertBy {A : Type} (cmp : A -> A -> jsnum) (a : A) (l : list A) : list A :=
  match l with
  | [] => [a]
  | b :: l' => if isPositive (cmp a b) then b :: insertBy cmp a l' else a :: l
  end.

Definition sortBy {A : Type} (cmp : A -> A -> jsnum) (l : list A) : list A :=
  fold_right (insertBy cmp) [] l.

Inductive SortKey : Type := SortKey_triaged_at | SortKey_lead_score.
Inductive SortDir : Type := asc | desc.

(** [new Date(s).getTime()] is a parameter [getTime] of what follows: the
    epoch milliseconds of a time stamp, NaN for a string that is no date. *)
Definition Clock : Type := string -> jsnum.

(** [x ? f(x) : d] for a [string | null]. *)
Definition truthyOr {A : Type} (x : option string) (f : string -> A) (d : A) : A :=
  match x with
  | Some s => if isEmpty s then d else f s
  | None => d
  end.

(** The comparator of the sorting pages ([part_000], lines 246-256 and
    911-920, the same text). *)
Definition compareRows (getTime : Clock) (sortKey : SortKey) (sortDir : SortDir)
  (a b : Row.t) : jsnum :=
  match sortKey with
  | SortKey_lead_score =>
      let av := match Row.lead_score a with Some x => Fin x | None => NegInf end in
      let bv := match Row.lead_score b with Some x => Fin x | None => NegInf end in
      match sortDir with asc => jsub av bv | desc => jsub bv av end
  | SortKey_triaged_at =>
      let at_ := truthyOr (Row.triaged_at a) getTime NegInf in
      let bt := truthyOr (Row.triaged_at b) getTime NegInf in
      match sortDir with asc => jsub at_ bt | desc => jsub bt at_ end
  end.

(* ================================================================== *)
(** ** Helpers and pagination shared by the pages *)

(** The badge kinds, from the mildest to the strongest colour. *)
Inductive BadgeKind : Type := neutral | good | warn | bad.

(** [severityKind] of the first two pages of [part_000] (lines 74-80 and
    706-712, the same text). *)
Definition severityKind (sev : option string) : BadgeKind :=
  match sev with
  | None => neutral
  | Some sev =>
      if isEmpty sev then neutral
      else if (sev =? "fatal")%string then bad
      else if (sev =? "serious_injury")%string then warn
      else if (sev =? "injury")%string then good
      else neutral
  end.

(** [scoreKind] ([part_000], lines 82-88, 714-720 and 1513-1519). *)
Definition scoreKind (score : option Z) : BadgeKind :=
  match score with
  | None => neutral
  | Some score =>
      if 85 <=? score then bad
      else if 70 <=? score then warn
      else if 50 <=? score then good
      else neutral
  end.

(** A number inside a template literal (a natural number here). *)
Definition decimal (n : nat) : string := NilEmpty.string_of_uint (Nat.to_uint n).

(** [fmtPeople] of [part_001] and of the first page of [part_000] (lines
    32-38 of both). *)
Definition fmtPeople (p : option (list string)) : string :=
  match p with
  | None => ""
  | Some [] => ""
  | Some p =>
      let max := 4%nat in
      let shown := firstn max p in
      let extra := if (max <? List.length p)%nat
                   then " +" ++ decimal (List.length p - max) else "" in
      join ", " shown ++ extra
  end.

(** [totalPages], [fromShown] and [toShown] of the three pages with a
    pager. *)
Definition totalPages (totalCount : Z) : Z := Z.max 1 (ceilPages totalCount).

Definition fromShown (page totalCount : Z) : Z :=
  if totalCount =? 0 then 0 else (page - 1) * PAGE_SIZE + 1.

Definition toShown (page totalCount : Z) : Z := Z.min (page * PAGE_SIZE) totalCount.

(** The handlers of the pager: [setPage(p => Math.max(1, p - 1))],
    [setPage(p => Math.min(totalPages, p + 1))] and, for the number typed
    into the page box ([None] when it is no number),
    [setPage(Math.max(1, Math.min(totalPages, Number(value) || 1)))]. *)
Definition prevPage (p : Z) : Z := Z.max 1 (p - 1).

Definition nextPage (totalPages p : Z) : Z := Z.min totalPages (p + 1).

Definition jumpToPage (totalPages : Z) (typed : option Z) : Z :=
  let n := match typed with
           | Some n => if n =? 0 then 1 else n
           | None => 1
           end in
  Z.max 1 (Z.min totalPages n).

(* ================================================================== *)
(** ** The page of [part_001] *)

Module Basic.

Module Params.
Record t : Type := mk {
  minScore : Z;
  severity : string;
  caseType : string;
  page : Z
}.
End Params.

Definition fromIdx (params : Params.t) : Z := (Params.page params - 1) * PAGE_SIZE.
Definition toIdx (params : Params.t) : Z := fromIdx params + PAGE_SIZE - 1.

(** The query awaited as [q1]. *)
Definition q1 (supabase : SupabaseClient) (params : Params.t) : Query :=
    let '(Params.mk minScore severity caseType _) := params in
    let q1 := Builder.from supabase "v_triage_live"
              |> Builder.select selectCols (Some "exact")
              |> Builder.order "triaged_at" false
              |> Builder.range (fromIdx params) (toIdx params) in
    let q1 := if 0 <? minScore then q1 |> Builder.gte "lead_score" minScore else q1 in
    let q1 := if notAll severity then q1 |> Builder.eq "severity" severity else q1 in
    let q1 := if notAll caseType then q1 |> Builder.eq "case_type" caseType else q1 in
    q1.

(** The query awaited as [q2]. *)
Definition q2 (supabase : SupabaseClient) (params : Params.t) : Query :=
    let '(Params.mk minScore severity caseType _) := params in
    let q2 := Builder.from supabase "articles"
              |> Builder.select selectCols (Some "exact")
              |> Builder.not_is_null "triaged_at"
              |> Builder.order "triaged_at" false
              |> Builder.range (fromIdx params) (toIdx params) in
    let q2 := if 0 <? minScore then q2 |> Builder.gte "lead_score" minScore else q2 in
    let q2 := if notAll severity then q2 |> Builder.eq "severity" severity else q2 in
    let q2 := if notAll caseType then q2 |> Builder.eq "case_type" caseType else q2 in
    q2.

(** [fetchPagedFromViewOrArticles]; the page imports the client
      [supabase] itself, so it is a parameter here. *)
Definition fetchPagedFromViewOrArticles (supabase : SupabaseClient) (params : Params.t)
    : Prog Fetched.t :=
    Await (q1 supabase params) (fun r1 =>
      match Response.error r1 with
      | None =>
          Ret (Fetched.mk (Response.data r1 ?? []) (Response.count r1 ?? 0) v_triage_live)
      | Some e1 =>
          Await (q2 supabase params) (fun r2 =>
            match Response.error r2 with
            | Some e2 =>
                Throw ("View error: " ++ message e1 ++ " | Articles error: " ++ message e2)
            | None =>
                Ret (Fetched.mk (Response.data r2 ?? []) (Response.count r2 ?? 0) articles)
            end)
      end).

Module State.
Record t : Type := mk {
  rows : list Row.t;
  totalCount : Z;
  loading : bool;
  err : option string;
  source : option Source;
  minScore : Z;
  severity : string;
  caseType : string;
  search : string;
  page : Z;
  autoRefresh : bool
}.
End State.

Definition setRows (v : list Row.t) (s : State.t) : State.t :=
  State.mk v (State.totalCount s) (State.loading s) (State.err s)
    (State.source s) (State.minScore s) (State.severity s)
    (State.caseType s) (State.search s) (State.page s)
    (State.autoRefresh s).
Definition setTotalCount (v : Z) (s : State.t) : State.t :=
  State.mk (State.rows s) v (State.loading s) (State.err s) (State.source s)
    (State.minScore s) (State.severity s) (State.caseType s)
    (State.search s) (State.page s) (State.autoRefresh s).
Definition setLoading (v : bool) (s : State.t) : State.t :=
  State.mk (State.rows s) (State.totalCount s) v (State.err s) (State.source s)
    (State.minScore s) (State.severity s) (State.caseType s)
    (State.search s) (State.page s) (State.autoRefresh s).
Definition setErr (v : option string) (s : State.t) : State.t :=
  State.mk (State.rows s) (State.totalCount s) (State.loading s) v
    (State.source s) (State.minScore s) (State.severity s)
    (State.caseType s) (State.search s) (State.page s)
    (State.autoRefresh s).
Definition setSource (v : option Source) (s : State.t) : State.t :=
  State.mk (State.rows s) (State.totalCount s) (State.loading s) (State.err s)
    v (State.minScore s) (State.severity s) (State.caseType s)
    (State.search s) (State.page s) (State.autoRefresh s).
Definition setPage (v : Z) (s : State.t) : State.t :=
  State.mk (State.rows s) (State.totalCount s) (State.loading s) (State.err s)
    (State.source s) (State.minScore s) (State.severity s)
    (State.caseType s) (State.search s) v (State.autoRefresh s).

(** [load], started from the state [st] of the render that calls it: the
    state once the fetch has settled and the setters have run.  The
    [finally] block is the last setter of both branches. *)
Definition load (supabase : SupabaseClient) (st : State.t) : Prog State.t :=
  let st1 := st |> setLoading true |> setErr None in
  tryCatch
    (fetchPagedFromViewOrArticles supabase
       (Params.mk (State.minScore st) (State.severity st) (State.caseType st) (State.page st)))
    (fun res =>
       let st2 := st1 |> setRows (Fetched.data res)
                      |> setTotalCount (Fetched.count res)
                      |> setSource (Some (Fetched.source res)) in
       let newTotalPages := Z.max 1 (ceilPages (Fetched.count res)) in
       let st3 := if newTotalPages <? State.page st then st2 |> setPage 1 else st2 in
       st3 |> setLoading false)
    (fun msg =>
       st1 |> setRows [] |> setTotalCount 0 |> setErr (Some msg) |> setSource None
           |> setLoading false).

Definition haystack (r : Row.t) : string :=
  toLowerCase ((Row.title r ?? "") ++ " " ++ (Row.publisher_domain r ?? "") ++ " " ++
               join " " (Row.triage_reasons r ?? []) ++ " " ++
               join " " (Row.people r ?? [])).

Definition filtered (rows : list Row.t) (search : string) : list Row.t :=
  let s := toLowerCase (trim search) in
  searchRows haystack s rows.

End Basic.

(* ================================================================== *)
(** ** The first page of [part_000] *)

Module Sorted.

Module Params := Basic.Params.

(** [fetchPagedFromViewOrArticles]: the program to run and the new content
    of the client cell.  From line 103 on the text is that of [part_001]. *)
Definition fetchPagedFromViewOrArticles (env : Env) (params : Params.t) (cell : ClientCell)
  : Prog Fetched.t * ClientCell :=
  let (supabase, cell') := getSupabase env cell in
  match supabase with
  | None => (Ret (Fetched.mk [] 0 v_triage_live), cell')
  | Some supabase => (Basic.fetchPagedFromViewOrArticles supabase params, cell')
  end.

Module State.
Record t : Type := mk {
  rows : list Row.t;
  totalCount : Z;
  loading : bool;
  err : option string;
  source : option Source;
  minScore : Z;
  severity : string;
  caseType : string;
  search : string;
  page : Z;
  autoRefresh : bool;
  sortKey : SortKey;
  sortDir : SortDir
}.
End State.

Definition setRows (v : list Row.t) (s : State.t) : State.t :=
  State.mk v (State.totalCount s) (State.loading s) (State.err s)
    (State.source s) (State.minScore s) (State.severity s)
    (State.caseType s) (State.search s) (State.page s)
    (State.autoRefresh s) (State.sortKey s) (State.sortDir s).
Definition setTotalCount (v : Z) (s : State.t) : State.t :=
  State.mk (State.rows s) v (State.loading s) (State.err s) (State.source s)
    (State.minScore s) (State.severity s) (State.caseType s)
    (State.search s) (State.page s) (State.autoRefresh s)
    (State.sortKey s) (State.sortDir s).
Definition setLoading (v : bool) (s : State.t) : State.t :=
  State.mk (State.rows s) (State.totalCount s) v (State.err s) (State.source s)
    (State.minScore s) (State.severity s) (State.caseType s)
    (State.search s) (State.page s) (State.autoRefresh s)
    (State.sortKey s) (State.sortDir s).
Definition setErr (v : option string) (s : State.t) : State.t :=
  State.mk (State.rows s) (State.totalCount s) (State.loading s) v
    (State.source s) (State.minScore s) (State.severity s)
    (State.caseType s) (State.search s) (State.page s)
    (State.autoRefresh s) (State.sortKey s) (State.sortDir s).
Definition setSource (v : option Source) (s : State.t) : State.t :=
  State.mk (State.rows s) (State.totalCount s) (State.loading s) (State.err s)
    v (State.minScore s) (State.severity s) (State.caseType s)
    (State.search s) (State.page s) (State.autoRefresh s)
    (State.sortKey s) (State.sortDir s).
Definition setPage (v : Z) (s : State.t) : State.t :=
  State.mk (State.rows s) (State.totalCount s) (State.loading s) (State.err s)
    (State.source s) (State.minScore s) (State.severity s)
    (State.caseType s) (State.search s) v (State.autoRefresh s)
    (State.sortKey s) (State.sortDir s).

Definition load (env : Env) (st : State.t) (cell : ClientCell) : Prog State.t * ClientCell :=
  let st1 := st |> setLoading true |> setErr None in
  let (fetch, cell') :=
    fetchPagedFromViewOrArticles env
      (Params.mk (State.minScore st) (State.severity st) (State.caseType st) (State.page st))
      cell in
  (tryCatch fetch
     (fun res =>
        let st2 := st1 |> setRows (Fetched.data res)
                       |> setTotalCount (Fetched.count res)
                       |> setSource (Some (Fetched.source res)) in
        let newTotalPages := Z.max 1 (ceilPages (Fetched.count res)) in
        let st3 := if newTotalPages <? State.page st then st2 |> setPage 1 else st2 in
        st3 |> setLoading false)
     (fun msg =>
        st1 |> setRows [] |> setTotalCount 0 |> setErr (Some msg) |> setSource None
            |> setLoading false),
   cell').

Definition haystack (r : Row.t) : string :=
  toLowerCase ((Row.title r ?? "") ++ " " ++ (Row.publisher_domain r ?? "") ++ " " ++
               join " " (Row.triage_reasons r ?? []) ++ " " ++
               join " " (Row.people r ?? [])).

(** The [searched] of [filtered]. *)
Definition searched (rows : list Row.t) (search : string) : list Row.t :=
  let s := toLowerCase (trim search) in
  searchRows haystack s rows.

Definition filtered (getTime : Clock) (rows : list Row.t) (search : string)
  (sortKey : SortKey) (sortDir : SortDir) : list Row.t :=
  sortBy (compareRows getTime sortKey sortDir) (searched rows search).

Definition setSortKey (v : SortKey) (s : State.t) : State.t :=
  State.mk (State.rows s) (State.totalCount s) (State.loading s) (State.err s)
    (State.source s) (State.minScore s) (State.severity s)
    (State.caseType s) (State.search s) (State.page s)
    (State.autoRefresh s) v (State.sortDir s).
Definition setSortDir (v : SortDir) (s : State.t) : State.t :=
  State.mk (State.rows s) (State.totalCount s) (State.loading s) (State.err s)
    (State.source s) (State.minScore s) (State.severity s)
    (State.caseType s) (State.search s) (State.page s)
    (State.autoRefresh s) (State.sortKey s) v.

(** [d === "desc" ? "asc" : "desc"] *)
Definition flipDir (d : SortDir) : SortDir :=
  match d with
  | desc => asc
  | asc => desc
  end.

Definition toggleScoreSort (s : State.t) : State.t :=
  match State.sortKey s with
  | SortKey_lead_score => s |> setSortDir (flipDir (State.sortDir s))
  | _ => s |> setSortKey SortKey_lead_score |> setSortDir desc
  end.

End Sorted.

(* ================================================================== *)
(** ** The second page of [part_000] *)

Module Status.

Module Params.
Record t : Type := mk {
  minScore : Z;
  severity : string;
  caseType : string;
  status : string;
  page : Z
}.
End Params.

Definition fromIdx (params : Params.t) : Z := (Params.page params - 1) * PAGE_SIZE.
Definition toIdx (params : Params.t) : Z := fromIdx params + PAGE_SIZE - 1.

Definition q1 (supabase : SupabaseClient) (params : Params.t) : Query :=
  let '(Params.mk minScore severity caseType status _) := params in
  let q1 := Builder.from supabase "v_triage_live"
            |> Builder.select selectCols (Some "exact")
            |> Builder.order "triaged_at" false
            |> Builder.range (fromIdx params) (toIdx params) in
  let q1 := if 0 <? minScore then q1 |> Builder.gte "lead_score" minScore else q1 in
  let q1 := if notAll severity then q1 |> Builder.eq "severity" severity else q1 in
  let q1 := if notAll caseType then q1 |> Builder.eq "case_type" caseType else q1 in
  let q1 := if notAll status then q1 |> Builder.eq "status" status else q1 in
  q1.

Definition q2 (supabase : SupabaseClient) (params : Params.t) : Query :=
  let '(Params.mk minScore severity caseType status _) := params in
  let q2 := Builder.from supabase "articles"
            |> Builder.select selectCols (Some "exact")
            |> Builder.not_is_null "triaged_at"
            |> Builder.order "triaged_at" false
            |> Builder.range (fromIdx params) (toIdx params) in
  let q2 := if 0 <? minScore then q2 |> Builder.gte "lead_score" minScore else q2 in
  let q2 := if notAll severity then q2 |> Builder.eq "severity" severity else q2 in
  let q2 := if notAll caseType then q2 |> Builder.eq "case_type" caseType else q2 in
  let q2 := if notAll status then q2 |> Builder.eq "status" status else q2 in
  q2.

Definition fetchPagedFromViewOrArticles (env : Env) (params : Params.t) (cell : ClientCell)
  : Prog Fetched.t * ClientCell :=
  let (supabase, cell') := getSupabase env cell in
  match supabase with
  | None => (Ret (Fetched.mk [] 0 v_triage_live), cell')
  | Some supabase =>
      (Await (q1 supabase params) (fun r1 =>
         match Response.error r1 with
         | None =>
             Ret (Fetched.mk (Response.data r1 ?? []) (Response.count r1 ?? 0) v_triage_live)
         | Some e1 =>
             Await (q2 supabase params) (fun r2 =>
               match Response.error r2 with
               | Some e2 =>
                   Throw ("View error: " ++ message e1 ++ " | Articles error: " ++ message e2)
               | None =>
                   Ret (Fetched.mk (Response.data r2 ?? []) (Response.count r2 ?? 0) articles)
               end)
         end),
       cell')
  end.

Module State.
Record t : Type := mk {
  rows : list Row.t;
  totalCount : Z;
  loading : bool;
  err : option string;
  source : option Source;
  minScore : Z;
  severity : string;
  caseType : string;
  status : string;
  searchInput : string;
  search : string;
  page : Z;
  autoRefresh : bool;
  sortKey : SortKey;
  sortDir : SortDir;
  expandedId : option string
}.
End State.

Definition setRows (v : list Row.t) (s : State.t) : State.t :=
  State.mk v (State.totalCount s) (State.loading s) (State.err s)
    (State.source s) (State.minScore s) (State.severity s)
    (State.caseType s) (State.status s) (State.searchInput s)
    (State.search s) (State.page s) (State.autoRefresh s)
    (State.sortKey s) (State.sortDir s) (State.expandedId s).
Definition setTotalCount (v : Z) (s : State.t) : State.t :=
  State.mk (State.rows s) v (State.loading s) (State.err s) (State.source s)
    (State.minScore s) (State.severity s) (State.caseType s)
    (State.status s) (State.searchInput s) (State.search s)
    (State.page s) (State.autoRefresh s) (State.sortKey s)
    (State.sortDir s) (State.expandedId s).
Definition setLoading (v : bool) (s : State.t) : State.t :=
  State.mk (State.rows s) (State.totalCount s) v (State.err s) (State.source s)
    (State.minScore s) (State.severity s) (State.caseType s)
    (State.status s) (State.searchInput s) (State.search s)
    (State.page s) (State.autoRefresh s) (State.sortKey s)
    (State.sortDir s) (State.expandedId s).
Definition setErr (v : option string) (s : State.t) : State.t :=
  State.mk (State.rows s) (State.totalCount s) (State.loading s) v
    (State.source s) (State.minScore s) (State.severity s)
    (State.caseType s) (State.status s) (State.searchInput s)
    (State.search s) (State.page s) (State.autoRefresh s)
    (State.sortKey s) (State.sortDir s) (State.expandedId s).
Definition setSource (v : option Source) (s : State.t) : State.t :=
  State.mk (State.rows s) (State.totalCount s) (State.loading s) (State.err s)
    v (State.minScore s) (State.severity s) (State.caseType s)
    (State.status s) (State.searchInput s) (State.search s)
    (State.page s) (State.autoRefresh s) (State.sortKey s)
    (State.sortDir s) (State.expandedId s).
Definition setPage (v : Z) (s : State.t) : State.t :=
  State.mk (State.rows s) (State.totalCount s) (State.loading s) (State.err s)
    (State.source s) (State.minScore s) (State.severity s)
    (State.caseType s) (State.status s) (State.searchInput s)
    (State.search s) v (State.autoRefresh s) (State.sortKey s)
    (State.sortDir s) (State.expandedId s).

Definition load (env : Env) (st : State.t) (cell : ClientCell) : Prog State.t * ClientCell :=
  let st1 := st |> setLoading true |> setErr None in
  let (fetch, cell') :=
    fetchPagedFromViewOrArticles env
      (Params.mk (State.minScore st) (State.severity st) (State.caseType st)
                 (State.status st) (State.page st))
      cell in
  (tryCatch fetch
     (fun res =>
        let st2 := st1 |> setRows (Fetched.data res)
                       |> setTotalCount (Fetched.count res)
                       |> setSource (Some (Fetched.source res)) in
        let newTotalPages := Z.max 1 (ceilPages (Fetched.count res)) in
        let st3 := if newTotalPages <? State.page st then st2 |> setPage 1 else st2 in
        st3 |> setLoading false)
     (fun msg =>
        st1 |> setRows [] |> setTotalCount 0 |> setErr (Some msg) |> setSource None
            |> setLoading false),
   cell').

Definition haystack (r : Row.t) : string :=
  toLowerCase ((Row.title r ?? "") ++ " " ++ (Row.publisher_domain r ?? "") ++ " " ++
               join " " (Row.triage_reasons r ?? []) ++ " " ++
               join " " (Row.people r ?? []) ++ " " ++ (Row.status r ?? "")).

Definition searched (rows : list Row.t) (search : string) : list Row.t :=
  let s := toLowerCase (trim search) in
  searchRows haystack s rows.

Definition filtered (getTime : Clock) (rows : list Row.t) (search : string)
  (sortKey : SortKey) (sortDir : SortDir) : list Row.t :=
  sortBy (compareRows getTime sortKey sortDir) (searched rows search).

Definition setSortKey (v : SortKey) (s : State.t) : State.t :=
  State.mk (State.rows s) (State.totalCount s) (State.loading s) (State.err s)
    (State.source s) (State.minScore s) (State.severity s)
    (State.caseType s) (State.status s) (State.searchInput s)
    (State.search s) (State.page s) (State.autoRefresh s) v
    (State.sortDir s) (State.expandedId s).
Definition setSortDir (v : SortDir) (s : State.t) : State.t :=
  State.mk (State.rows s) (State.totalCount s) (State.loading s) (State.err s)
    (State.source s) (State.minScore s) (State.severity s)
    (State.caseType s) (State.status s) (State.searchInput s)
    (State.search s) (State.page s) (State.autoRefresh s)
    (State.sortKey s) v (State.expandedId s).

Definition toggleScoreSort (s : State.t) : State.t :=
  match State.sortKey s with
  | SortKey_lead_score => s |> setSortDir (Sorted.flipDir (State.sortDir s))
  | _ => s |> setSortKey SortKey_lead_score |> setSortDir desc
  end.


(** [statusKind] *)
Definition statusKind (status : option string) : BadgeKind :=
  match status with
  | None => neutral
  | Some status =>
      if isEmpty status then neutral
      else
        let s := toLowerCase status in
        if (s =? "ignore")%string || (s =? "closed")%string then neutral
        else if (s =? "contacted")%string || (s =? "done")%string then good
        else if (s =? "reviewing")%string then warn
        else if (s =? "new")%string then bad
        else neutral
  end.

End Status.

(* ================================================================== *)
(** ** The third page of [part_000] *)

Module Compact.

Module Params := Status.Params.

Module Fetched.
Record t : Type := mk {
  data : list Row.t;
  count : Z
}.
End Fetched.

Definition q (supabase : SupabaseClient) (params : Params.t) : Query :=
  let from_ := (Params.page params - 1) * PAGE_SIZE in
  let to := from_ + PAGE_SIZE - 1 in
  let q := Builder.from supabase "v_triage_live"
           |> Builder.select "*" (Some "exact")
           |> Builder.order "triaged_at" false
           |> Builder.range from_ to in
  let q := if 0 <? Params.minScore params
           then q |> Builder.gte "lead_score" (Params.minScore params) else q in
  let q := if notAll (Params.severity params)
           then q |> Builder.eq "severity" (Params.severity params) else q in
  let q := if notAll (Params.caseType params)
           then q |> Builder.eq "case_type" (Params.caseType params) else q in
  let q := if notAll (Params.status params)
           then q |> Builder.eq "status" (Params.status params) else q in
  q.

Definition fetchPaged (env : Env) (params : Params.t) (cell : ClientCell)
  : Prog Fetched.t * ClientCell :=
  let (supabase, cell') := getSupabase env cell in
  match supabase with
  | None => (Ret (Fetched.mk [] 0), cell')
  | Some supabase =>
      (Await (q supabase params) (fun res =>
         Ret (Fetched.mk (Response.data res ?? []) (Response.count res ?? 0))),
       cell')
  end.

(** A [string | null] inside a template literal. *)
Definition interpolate (x : option string) : string := x ?? "null".

Definition haystack (r : Row.t) : string :=
  toLowerCase (interpolate (Row.title r) ++ " " ++ interpolate (Row.publisher_domain r) ++ " " ++
               join " " (Row.people r ?? []) ++ " " ++
               join " " (Row.triage_reasons r ?? [])).

(** [new Date(x ?? 0).getTime()] *)
Definition timeOf (getTime : Clock) (x : option string) : jsnum :=
  match x with
  | Some s => getTime s
  | None => Fin 0
  end.

Definition sortValue (getTime : Clock) (sortKey : SortKey) (r : Row.t) : jsnum :=
  match sortKey with
  | SortKey_lead_score => Fin (Row.lead_score r ?? (-1))
  | SortKey_triaged_at => timeOf getTime (Row.triaged_at r)
  end.

Definition compareRows (getTime : Clock) (sortKey : SortKey) (sortDir : SortDir)
  (a b : Row.t) : jsnum :=
  let av := sortValue getTime sortKey a in
  let bv := sortValue getTime sortKey b in
  match sortDir with asc => jsub av bv | desc => jsub bv av end.

Definition filtered (getTime : Clock) (rows : list Row.t) (search : string)
  (sortKey : SortKey) (sortDir : SortDir) : list Row.t :=
  let s := toLowerCase search in
  let searched := searchRows haystack s rows in
  sortBy (compareRows getTime sortKey sortDir) searched.

(** [severityKind] of the page, without the guard on a missing value. *)
Definition severityKind (sev : option string) : BadgeKind :=
  match sev with
  | Some sev =>
      if (sev =? "fatal")%string then bad
      else if (sev =? "serious_injury")%string then warn
      else if (sev =? "injury")%string then good
      else neutral
  | None => neutral
  end.

End Compact.

(* ================================================================== *)
(** ** Vocabulary of the properties *)

(** [s] occurs in [hay]. *)
Definition isSubstring (s hay : string) : Prop :=
  exists pre post, hay = pre ++ s ++ post.

(** [a] stands before [b] in [l]. *)
Definition precedes {A : Type} (a b : A) (l : list A) : Prop :=
  exists l1 l2 l3, l = (l1 ++ a :: l2 ++ b :: l3)%list.

(** The predicate a score threshold stands for. *)
Definition scorePredicate (minScore : Z) : list Filter :=
  if 0 <? minScore then [Gte "lead_score" minScore] else [].

(** The predicate a selector stands for. *)
Definition selectorPredicate (column value : string) : list Filter :=
  if notAll value then [Eq column value] else [].

(** The predicates the filter selections of a request stand for. *)
Definition basicPredicates (params : Basic.Params.t) : list Filter :=
  (scorePredicate (Basic.Params.minScore params) ++
   selectorPredicate "severity" (Basic.Params.severity params) ++
   selectorPredicate "case_type" (Basic.Params.caseType params))%list.

Definition statusPredicates (params : Status.Params.t) : list Filter :=
  (scorePredicate (Status.Params.minScore params) ++
   selectorPredicate "severity" (Status.Params.severity params) ++
   selectorPredicate "case_type" (Status.Params.caseType params) ++
   selectorPredicate "status" (Status.Params.status params))%list.

(** [qb] asks the base table what [qa] asks the view: the predicates
    [preds] and the non-null triage time, in the same order and range. *)
Definition fallbackOf (preds : list Filter) (qa qb : Query) : Prop :=
  q_from qa = "v_triage_live" /\ q_from qb = "articles" /\
  q_filters qa = preds /\
  q_filters qb = NotIsNull "triaged_at" :: preds /\
  q_order qa = [("triaged_at", false)] /\ q_order qb = q_order qa /\
  q_range qb = q_range qa /\
  q_select qb = q_select qa /\ q_count qb = q_count qa.

(** A remote service that answers a ranged query with no more rows than
    the range has places. *)
Definition honoursRange (remote : Remote) : Prop :=
  forall q lo hi rows,
    q_range q = Some (lo, hi) ->
    Response.data (remote q) = Some rows ->
    Z.of_nat (List.length rows) <= Z.max 0 (hi - lo + 1).

(** A session: fetches made one after the other through the same client
    cell, each run against the remote service. *)
Fixpoint session {P R : Type} (fetch : P -> ClientCell -> Prog R * ClientCell)
  (remote : Remote) (requests : list P) (cell : ClientCell)
  : list (list Query * Outcome R) :=
  match requests with
  | [] => []
  | p :: requests' =>
      let (prog, cell') := fetch p cell in
      run remote prog :: session fetch remote requests' cell'
  end.

(** The haystack in the words of the specification: the fields joined by
    single spaces, in lower case. *)
Definition joinedHaystack (r : Row.t) (withStatus : bool) : string :=
  toLowerCase
    (join " " ([Row.title r ?? ""; Row.publisher_domain r ?? "";
                join " " (Row.triage_reasons r ?? []);
                join " " (Row.people r ?? [])]
               ++ if withStatus then [Row.status r ?? ""] else [])%list).

(** The sort keys with a missing value as negative infinity. *)
Definition scoreKey (r : Row.t) : jsnum :=
  match Row.lead_score r with
  | Some x => Fin x
  | None => NegInf
  end.

Definition timeKey (getTime : Clock) (r : Row.t) : jsnum :=
  truthyOr (Row.triaged_at r) getTime NegInf.

(** Every time stamp present in [rows] is a date. *)
Definition validTimes (getTime : Clock) (rows : list Row.t) : Prop :=
  forall r s, In r rows -> Row.triaged_at r = Some s -> isEmpty s = false ->
              exists z, getTime s = Fin z.

(** The domain on which the sentinels of the compact page are below every
    value present: scores from zero up, dates after the epoch. *)
Definition compactDomain (getTime : Clock) (rows : list Row.t) : Prop :=
  (forall r x, In r rows -> Row.lead_score r = Some x -> 0 <= x) /\
  (forall r s, In r rows -> Row.triaged_at r = Some s ->
               isEmpty s = false /\ exists z, getTime s = Fin z /\ 0 < z).

(** [a] may stand before [b] in a list sorted by [key] in direction [dir]. *)
Definition ordered (key : Row.t -> jsnum) (dir : SortDir) (a b : Row.t) : Prop :=
  match dir with
  | asc => jle (key a) (key b)
  | desc => jle (key b) (key a)
  end.

(** The comparator that subtracts the values [val] of two rows, in the
    direction [dir]. *)
Definition subtracting (val : Row.t -> jsnum) (dir : SortDir) (a b : Row.t) : jsnum :=
  match dir with
  | asc => jsub (val a) (val b)
  | desc => jsub (val b) (val a)
  end.

(** [sorted] sorts [input] by score with a missing score as negative
    infinity: in both directions the output is a rearrangement of the
    input in the order of the keys; descending, a row of score 90 stands
    before a row of score 40 and every row with a score stands before
    every row without one. *)
Definition sortsByScore (input : list Row.t) (sorted : SortKey -> SortDir -> list Row.t)
  : Prop :=
  (forall dir, Permutation input (sorted SortKey_lead_score dir)) /\
  (forall dir, StronglySorted (ordered scoreKey dir) (sorted SortKey_lead_score dir)) /\
  (forall a b, In a input -> In b input ->
               Row.lead_score a = Some 90 -> Row.lead_score b = Some 40 ->
               precedes a b (sorted SortKey_lead_score desc)) /\
  (forall a b x, In a input -> In b input ->
                 Row.lead_score a = Some x -> Row.lead_score b = None ->
                 precedes a b (sorted SortKey_lead_score desc)).

(** [sorted] sorts [input] by triage time with a missing time as negative
    infinity: ascending, every row without a time stands before every row
    with one; descending, behind it. *)
Definition sortsByTime (getTime : Clock) (input : list Row.t)
  (sorted : SortKey -> SortDir -> list Row.t) : Prop :=
  (forall dir, Permutation input (sorted SortKey_triaged_at dir)) /\
  (forall dir, StronglySorted (ordered (timeKey getTime) dir)
                              (sorted SortKey_triaged_at dir)) /\
  (forall a b, In a input -> In b input ->
               falsy (Row.triaged_at a) = true -> falsy (Row.triaged_at b) = false ->
               precedes a b (sorted SortKey_triaged_at asc) /\
               precedes b a (sorted SortKey_triaged_at desc)).

(* ================================================================== *)
(** ** A remote service in memory

    Used to run the pages on concrete inputs: resources are lists of rows
    kept in the order queries ask for; a query on a resource that does not
    exist resolves to an error.  The theorems below quantify over every
    remote service and do not depend on this one. *)

Definition textColumn (column : string) (r : Row.t) : option string :=
  if (column =? "severity")%string then Row.severity r
  else if (column =? "case_type")%string then Row.case_type r
  else if (column =? "status")%string then Row.status r
  else if (column =? "triaged_at")%string then Row.triaged_at r
  else None.

Definition satisfies (r : Row.t) (f : Filter) : bool :=
  match f with
  | Gte column value =>
      (column =? "lead_score")%string &&
      match Row.lead_score r with Some x => value <=? x | None => false end
  | Eq column value =>
      match textColumn column r with Some x => (x =? value)%string | None => false end
  | NotIsNull column =>
      match textColumn column r with Some _ => true | None => false end
  end.

Definition slice (lo hi : Z) (rows : list Row.t) : list Row.t :=
  firstn (Z.to_nat (hi - lo + 1)) (skipn (Z.to_nat lo) rows).

Fixpoint resource (name : string) (db : list (string * list Row.t)) : option (list Row.t) :=
  match db with
  | [] => None
  | (n, rows) :: db' => if (n =? name)%string then Some rows else resource name db'
  end.

Definition tableRemote (db : list (string * list Row.t)) : Remote :=
  fun q =>
    match resource (q_from q) db with
    | None =>
        Response.mk (Some (mkError ("relation " ++ q_from q ++ " does not exist"))) None None
    | Some rows =>
        let matching := filter (fun r => forallb (satisfies r) (q_filters q)) rows in
        let page := match q_range q with
                    | Some (lo, hi) => slice lo hi matching
                    | None => matching
                    end in
        Response.mk None (Some page) (Some (Z.of_nat (List.length matching)))
    end.

(** Sample data. *)
Definition lead (ident : string) (headline : string) (sev : string)
  (score : option Z) (triaged : option string) : Row.t :=
  Row.mk ident None (Some headline) (Some "example.com") (Some ["John Smith"])
         (Some sev) (Some "truck") score (Some ["fatal crash"]) triaged None (Some "new").

Definition leadA : Row.t :=
  lead "a" "Truck crash" "fatal" (Some 90) (Some "2024-01-02T00:00:00Z").
Definition leadB : Row.t :=
  lead "b" "Pedestrian hit" "injury" (Some 40) (Some "2024-01-01T00:00:00Z").
Definition leadC : Row.t :=
  lead "c" "Untriaged item" "unknown" None None.
Definition leadD : Row.t :=
  lead "d" "Rescored item" "unknown" (Some (-5)) (Some "2024-01-03T00:00:00Z").

Definition sampleRows : list Row.t := [leadB; leadC; leadA].

(** The epoch milliseconds of the time stamps of the sample. *)
Definition sampleClock : Clock :=
  fun s =>
    if (s =? "2024-01-01T00:00:00Z")%string then Fin 1704067200000
    else if (s =? "2024-01-02T00:00:00Z")%string then Fin 1704153600000
    else if (s =? "2024-01-03T00:00:00Z")%string then Fin 1704240000000
    else NaN.

Definition sampleClient : SupabaseClient :=
  createClient "https://example.supabase.co" "anon-key".

Definition envReady : Env :=
  mkEnv true (Some "https://example.supabase.co") (Some "anon-key").

Definition envNoConfig : Env := mkEnv true None (Some "anon-key").

Definition remoteBoth : Remote :=
  tableRemote [("v_triage_live", [leadA; leadB]); ("articles", [leadA; leadB; leadC])].
Definition remoteNoView : Remote :=
  tableRemote [("articles", [leadA; leadB; leadC])].
Definition remoteDown : Remote := tableRemote [].

(** A view of 120 fatal leads of score 80, for the paging example. *)
Definition manyLeads : list Row.t :=
  map (fun n => lead (String (ascii_of_nat n) EmptyString) "Truck crash" "fatal" (Some 80)
                     (Some "2024-01-02T00:00:00Z"))
      (seq 0 120).
Definition remoteMany : Remote := tableRemote [("v_triage_live", manyLeads)].

Definition sampleParams : Basic.Params.t := Basic.Params.mk 70 "fatal" "all" 1.
Definition sampleStatusParams : Status.Params.t := Status.Params.mk 70 "fatal" "all" "new" 1.

Definition sampleState : Sorted.State.t :=
  Sorted.State.mk [leadA] 1 false None (Some v_triage_live) 70 "fatal" "all" "" 1 true
                  SortKey_triaged_at desc.
Definition sampleBasicState : Basic.State.t :=
  Basic.State.mk [leadA] 1 false None (Some v_triage_live) 70 "fatal" "all" "" 1 true.
Definition sampleStatusState : Status.State.t :=
  Status.State.mk [leadA] 1 false None (Some v_triage_live) 70 "fatal" "all" "new" "" "" 1 true
                  SortKey_triaged_at desc None.

(* ================================================================== *)
(** ** Vocabulary of the further properties *)

(** The queries [qs] are asked for the inclusive range from [lo] to [hi]:
    there is at least one, the first is [first], and each carries that
    range. *)
Definition askedRange (first : Query) (lo hi : Z) (qs : list Query) : Prop :=
  (exists rest, qs = first :: rest) /\
  Forall (fun q => q_range q = Some (lo, hi)) qs.

(** The queries [qs] carry the score predicate exactly when [minScore] is
    above zero: there is at least one query; each has the predicate
    [lead_score >= minScore] when [minScore] is above zero, and has no
    other "at least" predicate, none at all otherwise. *)
Definition scoreAppliedIff (minScore : Z) (qs : list Query) : Prop :=
  qs <> [] /\
  forall q, In q qs ->
    (0 < minScore -> In (Gte "lead_score" minScore) (q_filters q)) /\
    (forall column value, In (Gte column value) (q_filters q) ->
                          0 < minScore /\ column = "lead_score" /\ value = minScore).

(** The run of [prog] asks [qa] first and [qb] exactly when [qa] fails,
    nothing else, and throws exactly when both fail. *)
Definition fallbackDiscipline {A : Type} (remote : Remote) (qa qb : Query)
  (prog : Prog A) : Prop :=
  let failed q := exists e, Response.error (remote q) = Some e in
  (issued remote prog = [qa] \/ issued remote prog = [qa; qb]) /\
  (In qb (issued remote prog) <-> failed qa) /\
  ((exists msg, outcome remote prog = Thrown msg) <-> failed qa /\ failed qb).


(** The strength of a badge colour. *)
Definition badgeRank (k : BadgeKind) : Z :=
  match k with
  | neutral => 0
  | good => 1
  | warn => 2
  | bad => 3
  end.

(** The page number lies among the pages the pager offers. *)
Definition pageInRange (page totalCount : Z) : Prop :=
  1 <= page <= totalPages totalCount.



(** A remote service whose view answers every query with an error and no
    data. *)
Definition remoteViewError : Remote :=
  fun q =>
    if (q_from q =? "v_triage_live")%string
    then Response.mk (Some (mkError "permission denied")) None None
    else remoteNoView q.

(* ================================================================== *)
(** * Properties *)

(** ** The queries *)

Ltac split_selectors :=
  repeat match goal with
         | |- context [0 <? ?m] => destruct (0 <? m)
         | |- context [notAll ?v] => destruct (notAll v)
         end.

Lemma Basic_fallbackOf (supabase : SupabaseClient) (params : Basic.Params.t) :
  fallbackOf (basicPredicates params) (Basic.q1 supabase params) (Basic.q2 supabase params).
Proof.
  destruct params as [m sev ct pg].
  unfold fallbackOf, basicPredicates, scorePredicate, selectorPredicate, Basic.q1, Basic.q2.
  cbn [Basic.Params.minScore Basic.Params.severity Basic.Params.caseType].
  split_selectors; repeat split; reflexivity.
Qed.

Lemma Status_fallbackOf (supabase : SupabaseClient) (params : Status.Params.t) :
  fallbackOf (statusPredicates params) (Status.q1 supabase params) (Status.q2 supabase params).
Proof.
  destruct params as [m sev ct stat pg].
  unfold fallbackOf, statusPredicates, scorePredicate, selectorPredicate, Status.q1, Status.q2.
  cbn [Status.Params.minScore Status.Params.severity Status.Params.caseType
       Status.Params.status].
  split_selectors; repeat split; reflexivity.
Qed.

Lemma Basic_q1_range (supabase : SupabaseClient) (params : Basic.Params.t) :
  q_range (Basic.q1 supabase params) = Some (Basic.fromIdx params, Basic.toIdx params).
Proof.
  destruct params as [m sev ct pg]. unfold Basic.q1.
  split_selectors; reflexivity.
Qed.

Lemma Status_q1_range (supabase : SupabaseClient) (params : Status.Params.t) :
  q_range (Status.q1 supabase params) = Some (Status.fromIdx params, Status.toIdx params).
Proof.
  destruct params as [m sev ct stat pg]. unfold Status.q1.
  split_selectors; reflexivity.
Qed.

(** ** The runs of the fetcher *)

(** What a run of the fetcher of [part_001] does, by the answers of the
    remote service to its two queries. *)
Lemma Basic_run (supabase : SupabaseClient) (params : Basic.Params.t) (remote : Remote) :
  run remote (Basic.fetchPagedFromViewOrArticles supabase params) =
  let r1 := remote (Basic.q1 supabase params) in
  let r2 := remote (Basic.q2 supabase params) in
  match Response.error r1 with
  | None =>
      ([Basic.q1 supabase params],
       Returned (Fetched.mk (Response.data r1 ?? []) (Response.count r1 ?? 0) v_triage_live))
  | Some e1 =>
      match Response.error r2 with
      | None =>
          ([Basic.q1 supabase params; Basic.q2 supabase params],
           Returned (Fetched.mk (Response.data r2 ?? []) (Response.count r2 ?? 0) articles))
      | Some e2 =>
          ([Basic.q1 supabase params; Basic.q2 supabase params],
           Thrown ("View error: " ++ message e1 ++ " | Articles error: " ++ message e2))
      end
  end.
Proof.
  unfold Basic.fetchPagedFromViewOrArticles. cbn [run].
  destruct (Response.error (remote (Basic.q1 supabase params))) as [e1|]; cbn [run].
  - destruct (Response.error (remote (Basic.q2 supabase params))); reflexivity.
  - reflexivity.
Qed.

Lemma getSupabase_some (env : Env) (cell : ClientCell) (supabase : SupabaseClient) :
  fst (getSupabase env cell) = Some supabase ->
  getSupabase env cell = (Some supabase, Some supabase).
Proof.
  unfold getSupabase.
  destruct (negb (hasWindow env)); [discriminate|].
  destruct cell as [c|]; cbn [fst].
  - intros H. injection H as ->. reflexivity.
  - destruct (falsy _ || falsy _); [discriminate|].
    cbn [fst]. intros H. injection H as <-. reflexivity.
Qed.

Lemma Sorted_fetch_client (env : Env) (params : Basic.Params.t) (cell : ClientCell)
  (supabase : SupabaseClient) :
  fst (getSupabase env cell) = Some supabase ->
  Sorted.fetchPagedFromViewOrArticles env params cell =
  (Basic.fetchPagedFromViewOrArticles supabase params, Some supabase).
Proof.
  intros H. unfold Sorted.fetchPagedFromViewOrArticles.
  rewrite (getSupabase_some _ _ _ H). reflexivity.
Qed.

Lemma Status_run (env : Env) (params : Status.Params.t) (cell : ClientCell)
  (supabase : SupabaseClient) (remote : Remote) :
  fst (getSupabase env cell) = Some supabase ->
  run remote (fst (Status.fetchPagedFromViewOrArticles env params cell)) =
  let r1 := remote (Status.q1 supabase params) in
  let r2 := remote (Status.q2 supabase params) in
  match Response.error r1 with
  | None =>
      ([Status.q1 supabase params],
       Returned (Fetched.mk (Response.data r1 ?? []) (Response.count r1 ?? 0) v_triage_live))
  | Some e1 =>
      match Response.error r2 with
      | None =>
          ([Status.q1 supabase params; Status.q2 supabase params],
           Returned (Fetched.mk (Response.data r2 ?? []) (Response.count r2 ?? 0) articles))
      | Some e2 =>
          ([Status.q1 supabase params; Status.q2 supabase params],
           Thrown ("View error: " ++ message e1 ++ " | Articles error: " ++ message e2))
      end
  end.
Proof.
  intros H. unfold Status.fetchPagedFromViewOrArticles.
  rewrite (getSupabase_some _ _ _ H). cbn [fst run].
  destruct (Response.error (remote (Status.q1 supabase params))) as [e1|]; cbn [run].
  - destruct (Response.error (remote (Status.q2 supabase params))); reflexivity.
  - reflexivity.
Qed.

(** C1.  When the view query fails, the fetcher issues the view query and
    then the base-table query, and the second carries exactly the
    predicates of the first (score at least [minScore] when it is above
    zero, equality on each selector that is not "all"), the non-null
    [triaged_at] predicate in front of them, the same descending order by
    [triaged_at] and the same range.  Both for the page without the status
    selector and for the page with it. *)
Theorem fallback_query_same_predicates :
  (forall env cell supabase params remote e1,
      fst (getSupabase env cell) = Some supabase ->
      Response.error (remote (Basic.q1 supabase params)) = Some e1 ->
      issued remote (fst (Sorted.fetchPagedFromViewOrArticles env params cell)) =
        [Basic.q1 supabase params; Basic.q2 supabase params] /\
      fallbackOf (basicPredicates params)
                 (Basic.q1 supabase params) (Basic.q2 supabase params) /\
      q_range (Basic.q2 supabase params) =
        Some ((Basic.Params.page params - 1) * 50, (Basic.Params.page params - 1) * 50 + 49))
  /\
  (forall env cell supabase params remote e1,
      fst (getSupabase env cell) = Some supabase ->
      Response.error (remote (Status.q1 supabase params)) = Some e1 ->
      issued remote (fst (Status.fetchPagedFromViewOrArticles env params cell)) =
        [Status.q1 supabase params; Status.q2 supabase params] /\
      fallbackOf (statusPredicates params)
                 (Status.q1 supabase params) (Status.q2 supabase params) /\
      q_range (Status.q2 supabase params) =
        Some ((Status.Params.page params - 1) * 50, (Status.Params.page params - 1) * 50 + 49)).
Proof.
  split; intros env cell supabase params remote e1 Hc H1.
  - split; [|split].
    + unfold issued. rewrite (Sorted_fetch_client _ _ _ _ Hc). cbn [fst].
      rewrite Basic_run. cbv zeta. rewrite H1.
      destruct (Response.error (remote (Basic.q2 supabase params))); reflexivity.
    + apply Basic_fallbackOf.
    + pose proof (Basic_fallbackOf supabase params) as F.
      destruct F as (_ & _ & _ & _ & _ & _ & Hr & _).
      rewrite Hr, Basic_q1_range. unfold Basic.toIdx, Basic.fromIdx, PAGE_SIZE.
      do 2 f_equal; lia.
  - split; [|split].
    + unfold issued. rewrite (Status_run _ _ _ _ _ Hc). cbv zeta. rewrite H1.
      destruct (Response.error (remote (Status.q2 supabase params))); reflexivity.
    + apply Status_fallbackOf.
    + pose proof (Status_fallbackOf supabase params) as F.
      destruct F as (_ & _ & _ & _ & _ & _ & Hr & _).
      rewrite Hr, Status_q1_range. unfold Status.toIdx, Status.fromIdx, PAGE_SIZE.
      do 2 f_equal; lia.
Qed.

Lemma fallback_query_same_predicates_witness :
  (issued remoteNoView (fst (Sorted.fetchPagedFromViewOrArticles envReady sampleParams _client)) =
     [Basic.q1 sampleClient sampleParams; Basic.q2 sampleClient sampleParams] /\
   fallbackOf (basicPredicates sampleParams)
              (Basic.q1 sampleClient sampleParams) (Basic.q2 sampleClient sampleParams) /\
   q_range (Basic.q2 sampleClient sampleParams) = Some ((1 - 1) * 50, (1 - 1) * 50 + 49))
  /\
  (issued remoteNoView
          (fst (Status.fetchPagedFromViewOrArticles envReady sampleStatusParams _client)) =
     [Status.q1 sampleClient sampleStatusParams; Status.q2 sampleClient sampleStatusParams] /\
   fallbackOf (statusPredicates sampleStatusParams)
              (Status.q1 sampleClient sampleStatusParams)
              (Status.q2 sampleClient sampleStatusParams) /\
   q_range (Status.q2 sampleClient sampleStatusParams) = Some ((1 - 1) * 50, (1 - 1) * 50 + 49)).
Proof.
  split.
  - apply (proj1 fallback_query_same_predicates envReady _client sampleClient sampleParams
                 remoteNoView
                 (mkError "relation v_triage_live does not exist")); reflexivity.
  - apply (proj2 fallback_query_same_predicates envReady _client sampleClient
                 sampleStatusParams remoteNoView
                 (mkError "relation v_triage_live does not exist")); reflexivity.
Defined.

(** C2.  When the view query resolves without an error, the fetcher issues
    that query alone and returns its rows and count (an absent row list as
    the empty one, an absent count as zero) with the source tag
    [v_triage_live]; an empty row list is returned as it is, and the
    base-table query is never issued. *)
Theorem primary_success_is_returned :
  forall env cell supabase params remote,
    fst (getSupabase env cell) = Some supabase ->
    Response.error (remote (Basic.q1 supabase params)) = None ->
    let r1 := remote (Basic.q1 supabase params) in
    let prog := fst (Sorted.fetchPagedFromViewOrArticles env params cell) in
    run remote prog =
      ([Basic.q1 supabase params],
       Returned (Fetched.mk (Response.data r1 ?? []) (Response.count r1 ?? 0) v_triage_live)) /\
    (forall rows n,
        Response.data r1 = Some rows -> Response.count r1 = Some n ->
        outcome remote prog = Returned (Fetched.mk rows n v_triage_live)) /\
    (Response.data r1 = Some [] ->
     exists n, outcome remote prog = Returned (Fetched.mk [] n v_triage_live)) /\
    ~ In (Basic.q2 supabase params) (issued remote prog).
Proof.
  intros env cell supabase params remote Hc H1 r1 prog.
  assert (R : run remote prog =
              ([Basic.q1 supabase params],
               Returned (Fetched.mk (Response.data r1 ?? []) (Response.count r1 ?? 0)
                                    v_triage_live))).
  { unfold prog. rewrite (Sorted_fetch_client _ _ _ _ Hc). cbn [fst].
    rewrite Basic_run. cbv zeta. rewrite H1. reflexivity. }
  split; [exact R|]. unfold outcome, issued. rewrite R. cbn [fst snd].
  split; [|split].
  - intros rows n -> ->. reflexivity.
  - intros ->. eexists. reflexivity.
  - intros [H|[]].
    pose proof (Basic_fallbackOf supabase params) as (Ha & Hb & _).
    rewrite H in Ha. rewrite Ha in Hb. discriminate.
Qed.

Lemma primary_success_is_returned_witness :
  run remoteBoth (fst (Sorted.fetchPagedFromViewOrArticles envReady sampleParams _client)) =
    ([Basic.q1 sampleClient sampleParams],
     Returned (Fetched.mk [leadA] 1 v_triage_live)).
Proof.
  apply (primary_success_is_returned envReady _client sampleClient sampleParams remoteBoth);
    reflexivity.
Defined.

(** C3.  When the view query fails and the base-table query resolves
    without an error, the fetcher returns normally: the rows and count of
    the base-table answer with the source tag [articles]; nothing is
    thrown. *)
Theorem fallback_success_is_returned :
  (forall env cell supabase params remote e1,
      fst (getSupabase env cell) = Some supabase ->
      Response.error (remote (Basic.q1 supabase params)) = Some e1 ->
      Response.error (remote (Basic.q2 supabase params)) = None ->
      let r2 := remote (Basic.q2 supabase params) in
      run remote (fst (Sorted.fetchPagedFromViewOrArticles env params cell)) =
        ([Basic.q1 supabase params; Basic.q2 supabase params],
         Returned (Fetched.mk (Response.data r2 ?? []) (Response.count r2 ?? 0) articles)))
  /\
  (forall env cell supabase params remote e1,
      fst (getSupabase env cell) = Some supabase ->
      Response.error (remote (Status.q1 supabase params)) = Some e1 ->
      Response.error (remote (Status.q2 supabase params)) = None ->
      let r2 := remote (Status.q2 supabase params) in
      run remote (fst (Status.fetchPagedFromViewOrArticles env params cell)) =
        ([Status.q1 supabase params; Status.q2 supabase params],
         Returned (Fetched.mk (Response.data r2 ?? []) (Response.count r2 ?? 0) articles))).
Proof.
  split; intros env cell supabase params remote e1 Hc H1 H2 r2.
  - rewrite (Sorted_fetch_client _ _ _ _ Hc). cbn [fst].
    rewrite Basic_run. cbv zeta. rewrite H1, H2. reflexivity.
  - rewrite (Status_run _ _ _ _ _ Hc). cbv zeta. rewrite H1, H2. reflexivity.
Qed.

Lemma fallback_success_is_returned_witness :
  run remoteNoView (fst (Sorted.fetchPagedFromViewOrArticles envReady sampleParams _client)) =
    ([Basic.q1 sampleClient sampleParams; Basic.q2 sampleClient sampleParams],
     Returned (Fetched.mk [leadA] 1 articles))
  /\
  run remoteNoView
      (fst (Status.fetchPagedFromViewOrArticles envReady sampleStatusParams _client)) =
    ([Status.q1 sampleClient sampleStatusParams; Status.q2 sampleClient sampleStatusParams],
     Returned (Fetched.mk [leadA] 1 articles)).
Proof.
  split.
  - apply (proj1 fallback_success_is_returned envReady _client sampleClient sampleParams
                 remoteNoView (mkError "relation v_triage_live does not exist"));
      reflexivity.
  - apply (proj2 fallback_success_is_returned envReady _client sampleClient
                 sampleStatusParams remoteNoView
                 (mkError "relation v_triage_live does not exist"));
      reflexivity.
Defined.

(** C4.  When both queries fail, the fetcher throws an error whose message
    is "View error: <view message> | Articles error: <table message>": it
    holds both messages, the one of the view before the one of the table. *)
Theorem both_failures_are_thrown :
  forall env cell supabase params remote e1 e2,
    fst (getSupabase env cell) = Some supabase ->
    Response.error (remote (Basic.q1 supabase params)) = Some e1 ->
    Response.error (remote (Basic.q2 supabase params)) = Some e2 ->
    let thrown := "View error: " ++ message e1 ++ " | Articles error: " ++ message e2 in
    run remote (fst (Sorted.fetchPagedFromViewOrArticles env params cell)) =
      ([Basic.q1 supabase params; Basic.q2 supabase params], Thrown thrown) /\
    exists pre mid post, thrown = pre ++ message e1 ++ mid ++ message e2 ++ post.
Proof.
  intros env cell supabase params remote e1 e2 Hc H1 H2 thrown. split.
  - rewrite (Sorted_fetch_client _ _ _ _ Hc). cbn [fst].
    rewrite Basic_run. cbv zeta. rewrite H1, H2. reflexivity.
  - exists "View error: ", " | Articles error: ", "". unfold thrown.
    assert (E : forall s, s ++ "" = s) by (induction s; cbn; congruence).
    rewrite E. reflexivity.
Qed.

Lemma both_failures_are_thrown_witness :
  run remoteDown (fst (Sorted.fetchPagedFromViewOrArticles envReady sampleParams _client)) =
    ([Basic.q1 sampleClient sampleParams; Basic.q2 sampleClient sampleParams],
     Thrown ("View error: relation v_triage_live does not exist"
             ++ " | Articles error: relation articles does not exist")).
Proof.
  apply (both_failures_are_thrown envReady _client sampleClient sampleParams remoteDown
           (mkError "relation v_triage_live does not exist")
           (mkError "relation articles does not exist"));
    reflexivity.
Defined.

(** ** The missing configuration *)

Lemma getSupabase_no_config (env : Env) :
  falsy (NEXT_PUBLIC_SUPABASE_URL env) || falsy (NEXT_PUBLIC_SUPABASE_ANON_KEY env) = true ->
  getSupabase env None = (None, None).
Proof.
  intros H. unfold getSupabase. rewrite H.
  destruct (negb (hasWindow env)); reflexivity.
Qed.

Lemma session_no_client {P R : Type} (fetch : P -> ClientCell -> Prog R * ClientCell)
  (empty : R) (remote : Remote) (requests : list P) :
  (forall p, fetch p None = (Ret empty, None)) ->
  session fetch remote requests None = map (fun _ => ([], Returned empty)) requests.
Proof.
  intros H. induction requests as [|p ps IH]; cbn [session map].
  - reflexivity.
  - rewrite H. cbn [run]. rewrite IH. reflexivity.
Qed.

(** C5.  When the endpoint URL or the anonymous key is absent (undefined or
    empty), no client is ever constructed, and every fetch of a session
    that starts with the empty client cell issues no query and returns the
    empty row list and the count zero; nothing is thrown.  For the three
    pages that obtain their client from [getSupabase]. *)
Theorem missing_config_gives_empty_results :
  forall env remote,
    falsy (NEXT_PUBLIC_SUPABASE_URL env) || falsy (NEXT_PUBLIC_SUPABASE_ANON_KEY env) = true ->
    getSupabase env _client = (None, _client) /\
    (forall requests,
        session (Sorted.fetchPagedFromViewOrArticles env) remote requests _client =
        map (fun _ => ([], Returned (Fetched.mk [] 0 v_triage_live))) requests) /\
    (forall requests,
        session (Status.fetchPagedFromViewOrArticles env) remote requests _client =
        map (fun _ => ([], Returned (Fetched.mk [] 0 v_triage_live))) requests) /\
    (forall requests,
        session (Compact.fetchPaged env) remote requests _client =
        map (fun _ => ([], Returned (Compact.Fetched.mk [] 0))) requests).
Proof.
  intros env remote H. pose proof (getSupabase_no_config env H) as G.
  unfold _client. split; [exact G|].
  split; [|split]; intros requests; apply session_no_client; intros p.
  - unfold Sorted.fetchPagedFromViewOrArticles. rewrite G. reflexivity.
  - unfold Status.fetchPagedFromViewOrArticles. rewrite G. reflexivity.
  - unfold Compact.fetchPaged. rewrite G. reflexivity.
Qed.

Lemma missing_config_gives_empty_results_witness :
  session (Sorted.fetchPagedFromViewOrArticles envNoConfig) remoteBoth
          [sampleParams; Basic.Params.mk 0 "all" "all" 2] _client =
  [([], Returned (Fetched.mk [] 0 v_triage_live));
   ([], Returned (Fetched.mk [] 0 v_triage_live))].
Proof.
  apply (missing_config_gives_empty_results envNoConfig remoteBoth); reflexivity.
Defined.

(** ** The range *)

Lemma tableRemote_honoursRange (db : list (string * list Row.t)) :
  honoursRange (tableRemote db).
Proof.
  intros q lo hi rows Hr. unfold tableRemote.
  destruct (resource (q_from q) db) as [stored|]; cbn [Response.data]; [|discriminate].
  rewrite Hr. intros H. injection H as <-. unfold slice.
  rewrite length_firstn. lia.
Qed.

Lemma Basic_fetch_at_most (supabase : SupabaseClient) (params : Basic.Params.t)
  (remote : Remote) (res : Fetched.t) :
  honoursRange remote ->
  outcome remote (Basic.fetchPagedFromViewOrArticles supabase params) = Returned res ->
  Z.of_nat (List.length (Fetched.data res)) <= 50.
Proof.
  intros Hh. unfold outcome. rewrite Basic_run. cbv zeta.
  pose proof (Basic_q1_range supabase params) as R1.
  pose proof (Basic_fallbackOf supabase params) as (_ & _ & _ & _ & _ & _ & R2 & _).
  rewrite R1 in R2.
  assert (B : forall q rows, q_range q = Some (Basic.fromIdx params, Basic.toIdx params) ->
                             Response.data (remote q) = Some rows ->
                             Z.of_nat (List.length rows) <= 50).
  { intros q rows Hq Hd. pose proof (Hh q _ _ rows Hq Hd) as L.
    unfold Basic.toIdx, PAGE_SIZE in L. lia. }
  destruct (Response.error (remote (Basic.q1 supabase params))).
  - destruct (Response.error (remote (Basic.q2 supabase params))); cbn [snd]; [discriminate|].
    intros H. injection H as <-. cbn [Fetched.data].
    destruct (Response.data (remote (Basic.q2 supabase params))) as [rows|] eqn:D.
    + exact (B _ rows R2 D).
    + cbn. lia.
  - cbn [snd]. intros H. injection H as <-. cbn [Fetched.data].
    destruct (Response.data (remote (Basic.q1 supabase params))) as [rows|] eqn:D.
    + exact (B _ rows R1 D).
    + cbn. lia.
Qed.

Lemma Basic_issued (supabase : SupabaseClient) (params : Basic.Params.t) (remote : Remote) :
  issued remote (Basic.fetchPagedFromViewOrArticles supabase params) =
    [Basic.q1 supabase params] \/
  issued remote (Basic.fetchPagedFromViewOrArticles supabase params) =
    [Basic.q1 supabase params; Basic.q2 supabase params].
Proof.
  unfold issued. rewrite Basic_run. cbv zeta.
  destruct (Response.error (remote (Basic.q1 supabase params)));
    [destruct (Response.error (remote (Basic.q2 supabase params)))|]; cbn [fst]; auto.
Qed.

Lemma Basic_askedRange (supabase : SupabaseClient) (params : Basic.Params.t)
  (remote : Remote) :
  askedRange (Basic.q1 supabase params) (Basic.fromIdx params) (Basic.toIdx params)
             (issued remote (Basic.fetchPagedFromViewOrArticles supabase params)).
Proof.
  pose proof (Basic_q1_range supabase params) as R1.
  pose proof (Basic_fallbackOf supabase params) as (_ & _ & _ & _ & _ & _ & R2 & _).
  rewrite R1 in R2.
  destruct (Basic_issued supabase params remote) as [-> | ->]; split;
    try (eexists; reflexivity); repeat constructor; assumption.
Qed.

(** C6.  For a page number [p >= 1] the offset is [skip = (p - 1) * 50],
    it is not negative, and the fetcher asks the remote service for the
    inclusive range from [skip] to [skip + 49], which has 50 places: every
    run issues the view query first, and each query it issues (the view
    query, and the base-table query when there is one) carries that range.
    So a remote service that honours the range makes every fetch return 50
    rows at most.  For the fetcher of [part_001] and for the one of the
    first page of [part_000]. *)
Theorem page_range_of_fifty :
  forall supabase minScore severity caseType p,
    1 <= p ->
    let params := Basic.Params.mk minScore severity caseType p in
    let skip := (p - 1) * 50 in
    Basic.fromIdx params = skip /\ 0 <= skip /\
    q_range (Basic.q1 supabase params) = Some (skip, skip + 49) /\
    q_range (Basic.q2 supabase params) = Some (skip, skip + 49) /\
    (skip + 49) - skip + 1 = PAGE_SIZE /\
    (forall remote res,
        honoursRange remote ->
        outcome remote (Basic.fetchPagedFromViewOrArticles supabase params) = Returned res ->
        Z.of_nat (List.length (Fetched.data res)) <= 50) /\
    (forall env cell remote res,
        honoursRange remote ->
        outcome remote (fst (Sorted.fetchPagedFromViewOrArticles env params cell))
          = Returned res ->
        Z.of_nat (List.length (Fetched.data res)) <= 50) /\
    (forall remote,
        askedRange (Basic.q1 supabase params) skip (skip + 49)
                   (issued remote (Basic.fetchPagedFromViewOrArticles supabase params))) /\
    (forall env cell remote,
        fst (getSupabase env cell) = Some supabase ->
        askedRange (Basic.q1 supabase params) skip (skip + 49)
                   (issued remote
                      (fst (Sorted.fetchPagedFromViewOrArticles env params cell)))).
Proof.
  intros supabase minScore severity caseType p Hp params skip.
  pose proof (Basic_q1_range supabase params) as R1.
  pose proof (Basic_fallbackOf supabase params) as (_ & _ & _ & _ & _ & _ & R2 & _).
  rewrite R1 in R2.
  assert (T : Basic.toIdx params = skip + 49)
    by (unfold Basic.toIdx, Basic.fromIdx, PAGE_SIZE; cbn; lia).
  assert (F : Basic.fromIdx params = skip) by reflexivity.
  assert (K : forall remote,
             askedRange (Basic.q1 supabase params) skip (skip + 49)
               (issued remote (Basic.fetchPagedFromViewOrArticles supabase params))).
  { intros remote. pose proof (Basic_askedRange supabase params remote) as Q.
    rewrite T, F in Q. exact Q. }
  rewrite T, F in R1, R2.
  split; [exact F|]. split; [unfold skip; lia|]. split; [exact R1|].
  split; [exact R2|]. split; [unfold PAGE_SIZE; lia|].
  split; [|split; [|split]].
  - intros remote res Hh Ho. exact (Basic_fetch_at_most _ _ _ _ Hh Ho).
  - intros env cell remote res Hh.
    unfold Sorted.fetchPagedFromViewOrArticles.
    destruct (getSupabase env cell) as [[c|] cell']; cbn [fst].
    + apply Basic_fetch_at_most; assumption.
    + unfold outcome. cbn. intros H. injection H as <-. cbn. lia.
  - exact K.
  - intros env cell remote Hc. rewrite (Sorted_fetch_client _ _ _ _ Hc). cbn [fst].
    apply K.
Qed.

Lemma page_range_of_fifty_witness :
  q_range (Basic.q1 sampleClient (Basic.Params.mk 70 "fatal" "all" 3)) = Some (100, 149) /\
  Z.of_nat (List.length [leadA]) <= 50 /\
  askedRange (Basic.q1 sampleClient (Basic.Params.mk 70 "fatal" "all" 3)) 100 149
             (issued remoteNoView
                (fst (Sorted.fetchPagedFromViewOrArticles envReady
                        (Basic.Params.mk 70 "fatal" "all" 3) _client))).
Proof.
  pose proof (page_range_of_fifty sampleClient 70 "fatal" "all" 3 ltac:(lia)) as H3.
  pose proof (page_range_of_fifty sampleClient 70 "fatal" "all" 1 ltac:(lia)) as H1.
  cbv zeta in H3, H1.
  destruct H3 as (_ & _ & R & _ & _ & _ & _ & _ & Q).
  destruct H1 as (_ & _ & _ & _ & _ & L & _).
  split; [exact R|]. split.
  - apply (L remoteBoth (Fetched.mk [leadA] 1 v_triage_live)).
    + apply tableRemote_honoursRange.
    + reflexivity.
  - apply (Q envReady _client remoteNoView). reflexivity.
Defined.

(** ** The score threshold *)

Lemma scorePredicate_nonpositive (m : Z) : m <= 0 -> (0 <? m) = false.
Proof. intros H. apply Z.ltb_ge. exact H. Qed.

Lemma basicPredicates_score (params : Basic.Params.t) (preds : list Filter) :
  preds = basicPredicates params \/ preds = NotIsNull "triaged_at" :: basicPredicates params ->
  (0 < Basic.Params.minScore params ->
   In (Gte "lead_score" (Basic.Params.minScore params)) preds) /\
  (forall column value,
      In (Gte column value) preds ->
      0 < Basic.Params.minScore params /\ column = "lead_score" /\
      value = Basic.Params.minScore params).
Proof.
  destruct params as [m sev ct pg]. cbn [Basic.Params.minScore].
  unfold basicPredicates, scorePredicate, selectorPredicate.
  cbn [Basic.Params.minScore Basic.Params.severity Basic.Params.caseType].
  intros H. destruct (0 <? m) eqn:E.
  - apply Z.ltb_lt in E. split.
    + intros _. destruct H as [-> | ->]; cbn; auto.
    + intros column value Hin.
      destruct H as [-> | ->]; destruct (notAll sev), (notAll ct); cbn in Hin;
        repeat (destruct Hin as [Hin|Hin];
                [try discriminate; injection Hin as <- <-; auto|]);
        contradiction.
  - apply Z.ltb_ge in E. split; [lia|].
    intros column value Hin. exfalso.
    destruct H as [-> | ->]; destruct (notAll sev), (notAll ct); cbn in Hin;
      repeat (destruct Hin as [Hin|Hin]; [discriminate|]); exact Hin.
Qed.

Lemma Basic_scoreAppliedIff (supabase : SupabaseClient) (params : Basic.Params.t)
  (remote : Remote) :
  scoreAppliedIff (Basic.Params.minScore params)
                  (issued remote (Basic.fetchPagedFromViewOrArticles supabase params)).
Proof.
  pose proof (Basic_fallbackOf supabase params) as (_ & _ & F1 & F2 & _).
  assert (Q : forall q, Basic.q1 supabase params = q \/ Basic.q2 supabase params = q ->
              q_filters q = basicPredicates params \/
              q_filters q = NotIsNull "triaged_at" :: basicPredicates params)
    by (intros q [<- | <-]; auto).
  destruct (Basic_issued supabase params remote) as [-> | ->]; (split; [discriminate|]);
    intros q Hq; apply basicPredicates_score; apply Q; cbn in Hq; tauto.
Qed.

(** C10.  The score predicate is applied if and only if [minScore] is above
    zero: every run of the fetcher issues at least one query, and each
    query it issues carries the predicate [lead_score >= minScore] when
    [minScore] is above zero and no "at least" predicate otherwise.  So a
    request with [minScore] at or below zero, negative values included,
    builds the queries of the request with [minScore = 0] and runs to the
    same queries issued and the same outcome.  For the fetcher of
    [part_001] and for the one of the first page of [part_000]. *)
Theorem nonpositive_score_is_no_filter :
  forall supabase minScore severity caseType page,
    let params := Basic.Params.mk minScore severity caseType page in
    let params0 := Basic.Params.mk 0 severity caseType page in
    ((exists v, In (Gte "lead_score" v) (q_filters (Basic.q1 supabase params)))
     <-> 0 < minScore) /\
    (minScore <= 0 ->
     Basic.q1 supabase params = Basic.q1 supabase params0 /\
     Basic.q2 supabase params = Basic.q2 supabase params0 /\
     (forall remote,
         run remote (Basic.fetchPagedFromViewOrArticles supabase params) =
         run remote (Basic.fetchPagedFromViewOrArticles supabase params0)) /\
     (forall env cell remote,
         run remote (fst (Sorted.fetchPagedFromViewOrArticles env params cell)) =
         run remote (fst (Sorted.fetchPagedFromViewOrArticles env params0 cell)))) /\
    (forall remote,
        scoreAppliedIff minScore
          (issued remote (Basic.fetchPagedFromViewOrArticles supabase params))) /\
    (forall env cell remote,
        fst (getSupabase env cell) = Some supabase ->
        scoreAppliedIff minScore
          (issued remote (fst (Sorted.fetchPagedFromViewOrArticles env params cell)))).
Proof.
  intros supabase minScore severity caseType page params params0.
  split; [|split; [|split]].
  - pose proof (Basic_fallbackOf supabase params) as (_ & _ & F & _).
    rewrite F. unfold basicPredicates, scorePredicate, selectorPredicate, params.
    cbn [Basic.Params.minScore Basic.Params.severity Basic.Params.caseType].
    destruct (0 <? minScore) eqn:E.
    + split; [intros _; apply Z.ltb_lt; exact E|].
      intros _. exists minScore. left. reflexivity.
    + split; [|intros H; apply Z.ltb_lt in H; congruence].
      intros [v Hv]. exfalso.
      destruct (notAll severity), (notAll caseType); cbn in Hv;
        repeat (destruct Hv as [Hv|Hv]; [discriminate|]); exact Hv.
  - intros Hm.
    assert (Q1 : Basic.q1 supabase params = Basic.q1 supabase params0).
    { unfold Basic.q1, params, params0. rewrite (scorePredicate_nonpositive _ Hm).
      reflexivity. }
    assert (Q2 : Basic.q2 supabase params = Basic.q2 supabase params0).
    { unfold Basic.q2, params, params0. rewrite (scorePredicate_nonpositive _ Hm).
      reflexivity. }
    assert (R : forall remote,
               run remote (Basic.fetchPagedFromViewOrArticles supabase params) =
               run remote (Basic.fetchPagedFromViewOrArticles supabase params0)).
    { intros remote. rewrite !Basic_run. rewrite Q1, Q2. reflexivity. }
    repeat split; try assumption.
    intros env cell remote. unfold Sorted.fetchPagedFromViewOrArticles.
    destruct (getSupabase env cell) as [[c|] cell']; cbn [fst]; [|reflexivity].
    rewrite !Basic_run.
    assert (Q1' : Basic.q1 c params = Basic.q1 c params0).
    { unfold Basic.q1, params, params0. rewrite (scorePredicate_nonpositive _ Hm).
      reflexivity. }
    assert (Q2' : Basic.q2 c params = Basic.q2 c params0).
    { unfold Basic.q2, params, params0. rewrite (scorePredicate_nonpositive _ Hm).
      reflexivity. }
    rewrite Q1', Q2'. reflexivity.
  - intros remote. exact (Basic_scoreAppliedIff supabase params remote).
  - intros env cell remote Hc. rewrite (Sorted_fetch_client _ _ _ _ Hc). cbn [fst].
    exact (Basic_scoreAppliedIff supabase params remote).
Qed.

Lemma nonpositive_score_is_no_filter_witness :
  run remoteBoth (Basic.fetchPagedFromViewOrArticles sampleClient
                    (Basic.Params.mk (-3) "all" "all" 1)) =
  run remoteBoth (Basic.fetchPagedFromViewOrArticles sampleClient
                    (Basic.Params.mk 0 "all" "all" 1)) /\
  scoreAppliedIff 70
    (issued remoteNoView
       (fst (Sorted.fetchPagedFromViewOrArticles envReady sampleParams _client))).
Proof.
  pose proof (nonpositive_score_is_no_filter sampleClient (-3) "all" "all" 1)
    as (_ & H & _).
  pose proof (nonpositive_score_is_no_filter sampleClient 70 "fatal" "all" 1)
    as (_ & _ & _ & S).
  split.
  - apply (H ltac:(lia)).
  - apply (S envReady _client remoteNoView). reflexivity.
Defined.

(** ** The load routine *)

Lemma run_tryCatch {A B : Type} (remote : Remote) (m : Prog A)
  (ok : A -> B) (handler : string -> B) :
  run remote (tryCatch m ok handler) =
  (fst (run remote m),
   Returned (match snd (run remote m) with
             | Returned a => ok a
             | Thrown msg => handler msg
             end)).
Proof.
  induction m as [a|msg|q k IH]; cbn [run tryCatch fst snd]; try reflexivity.
  rewrite IH. destruct (run remote (k (remote q))). reflexivity.
Qed.

(** C9, as the code has it.  When both queries fail, the load routine
    settles in the state whose row list is empty and whose count is zero;
    it also records the message of the error, clears the source tag and
    the loading flag.  The filter selections (score, severity, case type
    and, on the page that has it, status), the page number, the search
    text, the sort settings and the other selections are those of the
    state the load started from.  For the three pages with a load routine. *)
Theorem failed_load_keeps_the_selections :
  (forall supabase st remote e1 e2,
      let params := Basic.Params.mk (Basic.State.minScore st) (Basic.State.severity st)
                                    (Basic.State.caseType st) (Basic.State.page st) in
      Response.error (remote (Basic.q1 supabase params)) = Some e1 ->
      Response.error (remote (Basic.q2 supabase params)) = Some e2 ->
      outcome remote (Basic.load supabase st) =
      Returned (Basic.State.mk [] 0 false
                  (Some ("View error: " ++ message e1 ++ " | Articles error: " ++ message e2))
                  None
                  (Basic.State.minScore st) (Basic.State.severity st) (Basic.State.caseType st)
                  (Basic.State.search st) (Basic.State.page st) (Basic.State.autoRefresh st)))
  /\
  (forall env cell supabase st remote e1 e2,
      let params := Basic.Params.mk (Sorted.State.minScore st) (Sorted.State.severity st)
                                    (Sorted.State.caseType st) (Sorted.State.page st) in
      fst (getSupabase env cell) = Some supabase ->
      Response.error (remote (Basic.q1 supabase params)) = Some e1 ->
      Response.error (remote (Basic.q2 supabase params)) = Some e2 ->
      outcome remote (fst (Sorted.load env st cell)) =
      Returned (Sorted.State.mk [] 0 false
                  (Some ("View error: " ++ message e1 ++ " | Articles error: " ++ message e2))
                  None
                  (Sorted.State.minScore st) (Sorted.State.severity st)
                  (Sorted.State.caseType st) (Sorted.State.search st) (Sorted.State.page st)
                  (Sorted.State.autoRefresh st) (Sorted.State.sortKey st)
                  (Sorted.State.sortDir st)))
  /\
  (forall env cell supabase st remote e1 e2,
      let params := Status.Params.mk (Status.State.minScore st) (Status.State.severity st)
                                     (Status.State.caseType st) (Status.State.status st)
                                     (Status.State.page st) in
      fst (getSupabase env cell) = Some supabase ->
      Response.error (remote (Status.q1 supabase params)) = Some e1 ->
      Response.error (remote (Status.q2 supabase params)) = Some e2 ->
      outcome remote (fst (Status.load env st cell)) =
      Returned (Status.State.mk [] 0 false
                  (Some ("View error: " ++ message e1 ++ " | Articles error: " ++ message e2))
                  None
                  (Status.State.minScore st) (Status.State.severity st)
                  (Status.State.caseType st) (Status.State.status st)
                  (Status.State.searchInput st) (Status.State.search st)
                  (Status.State.page st) (Status.State.autoRefresh st)
                  (Status.State.sortKey st) (Status.State.sortDir st)
                  (Status.State.expandedId st))).
Proof.
  split; [|split].
  - intros supabase st remote e1 e2 params H1 H2.
    unfold outcome, Basic.load. rewrite run_tryCatch. cbn [snd].
    rewrite Basic_run. cbv zeta. fold params. rewrite H1, H2. reflexivity.
  - intros env cell supabase st remote e1 e2 params Hc H1 H2.
    unfold outcome, Sorted.load. fold params.
    rewrite (Sorted_fetch_client _ _ _ _ Hc). cbn [fst].
    rewrite run_tryCatch. cbn [snd].
    rewrite Basic_run. cbv zeta. rewrite H1, H2. reflexivity.
  - intros env cell supabase st remote e1 e2 params Hc H1 H2.
    unfold outcome, Status.load. fold params.
    pose proof (Status_run env params cell supabase remote Hc) as R.
    cbv zeta in R. rewrite H1, H2 in R.
    destruct (Status.fetchPagedFromViewOrArticles env params cell) as [prog cell'].
    cbn [fst] in R |- *. rewrite run_tryCatch. rewrite R. reflexivity.
Qed.

Lemma failed_load_keeps_the_selections_witness :
  outcome remoteDown (Basic.load sampleClient sampleBasicState) =
    Returned (Basic.State.mk [] 0 false
                (Some ("View error: relation v_triage_live does not exist"
                       ++ " | Articles error: relation articles does not exist"))
                None 70 "fatal" "all" "" 1 true)
  /\
  outcome remoteDown (fst (Sorted.load envReady sampleState _client)) =
    Returned (Sorted.State.mk [] 0 false
                (Some ("View error: relation v_triage_live does not exist"
                       ++ " | Articles error: relation articles does not exist"))
                None 70 "fatal" "all" "" 1 true SortKey_triaged_at desc)
  /\
  outcome remoteDown (fst (Status.load envReady sampleStatusState _client)) =
    Returned (Status.State.mk [] 0 false
                (Some ("View error: relation v_triage_live does not exist"
                       ++ " | Articles error: relation articles does not exist"))
                None 70 "fatal" "all" "new" "" "" 1 true SortKey_triaged_at desc None).
Proof.
  split; [|split].
  - apply (proj1 failed_load_keeps_the_selections sampleClient sampleBasicState remoteDown
                 (mkError "relation v_triage_live does not exist")
                 (mkError "relation articles does not exist")); reflexivity.
  - apply (proj1 (proj2 failed_load_keeps_the_selections) envReady _client sampleClient
                 sampleState remoteDown
                 (mkError "relation v_triage_live does not exist")
                 (mkError "relation articles does not exist")); reflexivity.
  - apply (proj2 (proj2 failed_load_keeps_the_selections) envReady _client sampleClient
                 sampleStatusState remoteDown
                 (mkError "relation v_triage_live does not exist")
                 (mkError "relation articles does not exist")); reflexivity.
Defined.

(** C9, as it is worded, fails: after a load that started from a state
    with no error and with the source tag of an earlier success, and in
    which both queries fail, the rows and the count are cleared but the
    error and the source tag are not those of the starting state. *)
Lemma failed_load_changes_error_and_source :
  exists e1 e2 st',
    Response.error (remoteDown (Basic.q1 sampleClient sampleParams)) = Some e1 /\
    Response.error (remoteDown (Basic.q2 sampleClient sampleParams)) = Some e2 /\
    outcome remoteDown (fst (Sorted.load envReady sampleState _client)) = Returned st' /\
    Sorted.State.rows st' = [] /\ Sorted.State.totalCount st' = 0 /\
    Sorted.State.err sampleState = None /\
    Sorted.State.err st' <> Sorted.State.err sampleState /\
    Sorted.State.source sampleState = Some v_triage_live /\
    Sorted.State.source st' <> Sorted.State.source sampleState /\
    st' <> Sorted.setTotalCount 0 (Sorted.setRows [] sampleState).
Proof.
  do 3 eexists. repeat split; try reflexivity; cbn; discriminate.
Qed.

(** ** The search *)

Lemma prefix_spec (s hay : string) :
  prefix s hay = true <-> exists post, hay = s ++ post.
Proof.
  revert hay. induction s as [|c s IH]; intros hay.
  - split; [intros _; exists hay; reflexivity | intros _; destruct hay; reflexivity].
  - destruct hay as [|d hay]; cbn [prefix].
    + split; [discriminate | intros [post H]; discriminate].
    + destruct (ascii_dec c d) as [->|N].
      * rewrite IH. split; intros [post H]; exists post.
        -- cbn. rewrite H. reflexivity.
        -- cbn in H. injection H as H. exact H.
      * split; [discriminate|]. intros [post H]. cbn in H. congruence.
Qed.

Lemma includes_spec (hay s : string) :
  includes hay s = true <-> isSubstring s hay.
Proof.
  unfold isSubstring. induction hay as [|c hay IH]; cbn [includes].
  - rewrite orb_false_r, prefix_spec. split.
    + intros [post H]. exists "", post. exact H.
    + intros (pre & post & H). destruct pre; [exists post; exact H | discriminate].
  - rewrite orb_true_iff, prefix_spec, IH. split.
    + intros [[post H] | (pre & post & H)].
      * exists "", post. exact H.
      * exists (String c pre), post. cbn. rewrite H. reflexivity.
    + intros (pre & post & H). destruct pre as [|d pre].
      * left. exists post. exact H.
      * right. cbn in H. injection H as _ H. exists pre, post. exact H.
Qed.

Lemma includes_empty (hay : string) : includes hay "" = true.
Proof. destruct hay; reflexivity. Qed.

Lemma isEmpty_toLowerCase (s : string) : isEmpty (toLowerCase s) = isEmpty s.
Proof. destruct s; reflexivity. Qed.

Lemma isEmpty_trim (s : string) : isEmpty (trim s) = allSpace s.
Proof.
  unfold trim. induction s as [|c s IH]; [reflexivity|].
  cbn [trimStart allSpace]. destruct (isSpace c) eqn:E; cbn [andb].
  - exact IH.
  - cbn [trimEnd]. rewrite E. reflexivity.
Qed.

Lemma searchRows_filter (hay : Row.t -> string) (s : string) (rows : list Row.t) :
  searchRows hay s rows = filter (fun r => includes (hay r) s) rows.
Proof.
  unfold searchRows. destruct s as [|c s]; cbn [isEmpty]; [|reflexivity].
  induction rows as [|r rows IH]; [reflexivity|].
  cbn [filter]. rewrite includes_empty, <- IH. reflexivity.
Qed.

Lemma Sorted_haystack_joined (r : Row.t) : Sorted.haystack r = joinedHaystack r false.
Proof. reflexivity. Qed.

Lemma Status_haystack_joined (r : Row.t) : Status.haystack r = joinedHaystack r true.
Proof. reflexivity. Qed.

(** C7, as the code has it.  The needle of the search is the search text
    trimmed and in lower case; it is empty exactly when the text is empty
    or white space only, and then the search returns the rows as they are.
    Otherwise the search returns, in their order, exactly the rows whose
    haystack (title, publisher domain, joined reasons, joined people and,
    on the page with a status, the status, joined by single spaces, in
    lower case) has the needle as a substring. *)
Theorem search_uses_trimmed_needle :
  forall rows search,
    let needle := toLowerCase (trim search) in
    isEmpty needle = allSpace search /\
    (allSpace search = true ->
     Sorted.searched rows search = rows /\ Status.searched rows search = rows) /\
    (allSpace search = false ->
     Sorted.searched rows search =
       filter (fun r => includes (joinedHaystack r false) needle) rows /\
     Status.searched rows search =
       filter (fun r => includes (joinedHaystack r true) needle) rows) /\
    (forall hay, includes hay needle = true <-> isSubstring needle hay).
Proof.
  intros rows search needle.
  assert (E : isEmpty needle = allSpace search)
    by (unfold needle; rewrite isEmpty_toLowerCase; apply isEmpty_trim).
  split; [exact E|]. split; [|split].
  - intros H. rewrite H in E.
    unfold Sorted.searched, Status.searched, searchRows. fold needle.
    rewrite E. split; reflexivity.
  - intros _. unfold Sorted.searched, Status.searched. fold needle.
    rewrite !searchRows_filter. split; reflexivity.
  - intros hay. apply includes_spec.
Qed.

Lemma search_uses_trimmed_needle_witness :
  (Sorted.searched sampleRows "   " = sampleRows /\
   Status.searched sampleRows "   " = sampleRows) /\
  (Sorted.searched sampleRows " Truck " =
     filter (fun r => includes (joinedHaystack r false) "truck") sampleRows /\
   Status.searched sampleRows " Truck " =
     filter (fun r => includes (joinedHaystack r true) "truck") sampleRows).
Proof.
  pose proof (search_uses_trimmed_needle sampleRows "   ") as (_ & Hblank & _).
  pose proof (search_uses_trimmed_needle sampleRows " Truck ") as (_ & _ & Htext & _).
  split.
  - apply Hblank. reflexivity.
  - apply Htext. reflexivity.
Defined.

(** C7, as it is worded, fails: for the search text " truck" the search
    returns the lead titled "Truck crash", whose haystack does not hold
    the text in lower case (with its leading space) as a substring. *)
Lemma search_untrimmed_text_counterexample :
  allSpace " truck" = false /\
  Sorted.searched [leadA] " truck" = [leadA] /\
  Status.searched [leadA] " truck" = [leadA] /\
  ~ isSubstring (toLowerCase " truck") (joinedHaystack leadA false) /\
  ~ isSubstring (toLowerCase " truck") (joinedHaystack leadA true).
Proof.
  repeat split; try reflexivity; intros H; apply includes_spec in H; discriminate H.
Qed.

(** ** The sort *)

Lemma jle_trans (x y z : jsnum) : jle x y -> jle y z -> jle x z.
Proof. destruct x, y, z; cbn; try tauto; lia. Qed.

Lemma jsub_after (x y : jsnum) :
  isNaN x = false -> isNaN y = false -> isPositive (jsub x y) = true -> jle y x.
Proof.
  destruct x, y; cbn; try discriminate; try tauto.
  intros _ _ H. apply Z.ltb_lt in H. lia.
Qed.

Lemma jsub_before (x y : jsnum) :
  isNaN x = false -> isNaN y = false -> isPositive (jsub x y) = false -> jle x y.
Proof.
  destruct x, y; cbn; try discriminate; try tauto.
  intros _ _ H. apply Z.ltb_ge in H. lia.
Qed.

Section Sorting.

Variable A : Type.
Variable cmp : A -> A -> jsnum.

Lemma insertBy_perm (a : A) (l : list A) : Permutation (a :: l) (insertBy cmp a l).
Proof.
  induction l as [|b l IH]; cbn [insertBy]; [reflexivity|].
  destruct (isPositive (cmp a b)); [|reflexivity].
  rewrite perm_swap. apply perm_skip. exact IH.
Qed.

Lemma sortBy_perm (l : list A) : Permutation l (sortBy cmp l).
Proof.
  induction l as [|a l IH]; cbn; [reflexivity|].
  rewrite <- insertBy_perm. apply perm_skip. exact IH.
Qed.

(** A transitive relation [R] that the comparator decides on the elements
    in [U]. *)
Variable U : A -> Prop.
Variable R : A -> A -> Prop.
Hypothesis R_trans : forall a b c, R a b -> R b c -> R a c.
Hypothesis cmp_after : forall a b, U a -> U b -> isPositive (cmp a b) = true -> R b a.
Hypothesis cmp_before : forall a b, U a -> U b -> isPositive (cmp a b) = false -> R a b.

Lemma insertBy_sorted (a : A) (l : list A) :
  U a -> Forall U l -> StronglySorted R l -> StronglySorted R (insertBy cmp a l).
Proof.
  intros Ua. induction l as [|b l IH]; intros Ul Sl; cbn [insertBy].
  - constructor; constructor.
  - inversion Ul as [|? ? Ub Ul']; subst. inversion Sl as [|? ? Sl' Fb]; subst.
    destruct (isPositive (cmp a b)) eqn:E.
    + constructor; [apply IH; assumption|].
      apply (Permutation_Forall (insertBy_perm a l)).
      constructor; [|exact Fb].
      apply cmp_after; assumption.
    + pose proof (cmp_before a b Ua Ub E) as Rab.
      constructor; [exact Sl|].
      constructor; [exact Rab|].
      eapply Forall_impl; [|exact Fb]. intros c Rbc. exact (R_trans _ _ _ Rab Rbc).
Qed.

Lemma sortBy_sorted (l : list A) :
  Forall U l -> StronglySorted R (sortBy cmp l).
Proof.
  induction l as [|a l IH]; intros Ul; cbn.
  - constructor.
  - inversion Ul; subst. apply insertBy_sorted; auto.
    apply (Permutation_Forall (sortBy_perm l)). assumption.
Qed.

End Sorting.

Lemma StronglySorted_precedes {A : Type} (R : A -> A -> Prop) (l : list A) (a b : A) :
  StronglySorted R l -> precedes a b l -> R a b.
Proof.
  intros S (l1 & l2 & l3 & ->). induction l1 as [|c l1 IH]; cbn in S.
  - inversion S as [|? ? _ F]; subst.
    rewrite Forall_forall in F. apply F. apply in_or_app. right. left. reflexivity.
  - inversion S; subst. apply IH. assumption.
Qed.

Lemma In_precedes {A : Type} (a b : A) (l : list A) :
  In a l -> In b l -> a <> b -> precedes a b l \/ precedes b a l.
Proof.
  intros Ha Hb N. apply in_split in Ha as (l1 & l2 & ->).
  apply in_app_or in Hb as [Hb|[Hb|Hb]].
  - right. apply in_split in Hb as (m1 & m2 & ->).
    exists m1, m2, l2. rewrite <- app_assoc. reflexivity.
  - contradiction.
  - left. apply in_split in Hb as (m1 & m2 & ->).
    exists l1, m1, m2. reflexivity.
Qed.

Lemma placed_before {A : Type} (R : A -> A -> Prop) (l : list A) (a b : A) :
  StronglySorted R l -> In a l -> In b l -> a <> b -> ~ R b a -> precedes a b l.
Proof.
  intros S Ha Hb N NR. destruct (In_precedes a b l Ha Hb N) as [P|P]; [exact P|].
  exfalso. apply NR. exact (StronglySorted_precedes R l b a S P).
Qed.

Lemma ordered_trans (key : Row.t -> jsnum) (dir : SortDir) (a b c : Row.t) :
  ordered key dir a b -> ordered key dir b c -> ordered key dir a c.
Proof.
  destruct dir; cbn; intros H1 H2; eapply jle_trans; eassumption.
Qed.

(** A comparator that subtracts the values [val] of the rows, in the
    direction [dir], sorts by every key [key] that orders the rows of the
    list as [val] does. *)
Lemma sortBy_ordered (val key : Row.t -> jsnum) (dir : SortDir) (l : list Row.t) :
  (forall r, In r l -> isNaN (val r) = false) ->
  (forall a b, In a l -> In b l -> jle (val a) (val b) -> jle (key a) (key b)) ->
  StronglySorted (ordered key dir) (sortBy (subtracting val dir) l).
Proof.
  intros Hn Hk.
  apply sortBy_sorted with (U := fun r => In r l).
  - intros a b c. apply ordered_trans.
  - intros a b Ha Hb. unfold subtracting.
    destruct dir; cbn; intros P; apply Hk; try assumption; apply jsub_after in P; auto.
  - intros a b Ha Hb. unfold subtracting.
    destruct dir; cbn; intros P; apply Hk; try assumption; apply jsub_before in P; auto.
  - apply Forall_forall. auto.
Qed.

Lemma scoreKey_number (r : Row.t) : isNaN (scoreKey r) = false.
Proof. unfold scoreKey. destruct (Row.lead_score r); reflexivity. Qed.

Lemma timeKey_missing (getTime : Clock) (r : Row.t) :
  falsy (Row.triaged_at r) = true -> timeKey getTime r = NegInf.
Proof.
  unfold timeKey, truthyOr, falsy. destruct (Row.triaged_at r) as [s|]; [|reflexivity].
  intros ->. reflexivity.
Qed.

Lemma timeKey_present (getTime : Clock) (r : Row.t) :
  falsy (Row.triaged_at r) = false ->
  exists s, Row.triaged_at r = Some s /\ isEmpty s = false /\ timeKey getTime r = getTime s.
Proof.
  unfold timeKey, truthyOr, falsy. destruct (Row.triaged_at r) as [s|]; [|discriminate].
  intros H. exists s. rewrite H. auto.
Qed.

Lemma sortsByScore_intro (val : Row.t -> jsnum) (input : list Row.t)
  (sorted : SortKey -> SortDir -> list Row.t) :
  (forall dir, sorted SortKey_lead_score dir = sortBy (subtracting val dir) input) ->
  (forall r, In r input -> isNaN (val r) = false) ->
  (forall a b, In a input -> In b input ->
               jle (val a) (val b) -> jle (scoreKey a) (scoreKey b)) ->
  sortsByScore input sorted.
Proof.
  intros Hs Hn Hk.
  assert (P : forall dir, Permutation input (sorted SortKey_lead_score dir))
    by (intros dir; rewrite Hs; apply sortBy_perm).
  assert (S : forall dir, StronglySorted (ordered scoreKey dir)
                                         (sorted SortKey_lead_score dir))
    by (intros dir; rewrite Hs; apply sortBy_ordered; assumption).
  split; [exact P|]. split; [exact S|]. split.
  - intros a b Ha Hb Sa Sb.
    apply (placed_before (ordered scoreKey desc)); auto.
    + apply (Permutation_in _ (P desc)); assumption.
    + apply (Permutation_in _ (P desc)); assumption.
    + congruence.
    + unfold ordered, scoreKey. rewrite Sa, Sb. cbn. lia.
  - intros a b x Ha Hb Sa Sb.
    apply (placed_before (ordered scoreKey desc)); auto.
    + apply (Permutation_in _ (P desc)); assumption.
    + apply (Permutation_in _ (P desc)); assumption.
    + congruence.
    + unfold ordered, scoreKey. rewrite Sa, Sb. cbn. tauto.
Qed.

Lemma sortsByTime_intro (getTime : Clock) (val : Row.t -> jsnum) (input : list Row.t)
  (sorted : SortKey -> SortDir -> list Row.t) :
  (forall dir, sorted SortKey_triaged_at dir = sortBy (subtracting val dir) input) ->
  (forall r, In r input -> isNaN (val r) = false) ->
  (forall a b, In a input -> In b input ->
               jle (val a) (val b) -> jle (timeKey getTime a) (timeKey getTime b)) ->
  (forall r, In r input -> falsy (Row.triaged_at r) = false ->
             exists z, timeKey getTime r = Fin z) ->
  sortsByTime getTime input sorted.
Proof.
  intros Hs Hn Hk Hp.
  assert (P : forall dir, Permutation input (sorted SortKey_triaged_at dir))
    by (intros dir; rewrite Hs; apply sortBy_perm).
  assert (S : forall dir, StronglySorted (ordered (timeKey getTime) dir)
                                         (sorted SortKey_triaged_at dir))
    by (intros dir; rewrite Hs; apply sortBy_ordered; assumption).
  split; [exact P|]. split; [exact S|].
  intros a b Ha Hb Ma Mb.
  destruct (Hp b Hb Mb) as [z Kb]. pose proof (timeKey_missing getTime a Ma) as Ka.
  assert (N : a <> b) by congruence.
  split.
  - apply (placed_before (ordered (timeKey getTime) asc)); auto.
    + apply (Permutation_in _ (P asc)); assumption.
    + apply (Permutation_in _ (P asc)); assumption.
    + unfold ordered. rewrite Ka, Kb. cbn. tauto.
  - apply (placed_before (ordered (timeKey getTime) desc)); auto.
    + apply (Permutation_in _ (P desc)); assumption.
    + apply (Permutation_in _ (P desc)); assumption.
    + unfold ordered. rewrite Ka, Kb. cbn. tauto.
Qed.

Lemma searchRows_incl (hay : Row.t -> string) (s : string) (rows : list Row.t) (r : Row.t) :
  In r (searchRows hay s rows) -> In r rows.
Proof. rewrite searchRows_filter. intros H. apply filter_In in H. tauto. Qed.

(** The comparator with the negative infinity sentinel sorts a list by
    score, and by time when the time stamps of the list are dates. *)
Lemma sentinel_sortsByScore (getTime : Clock) (input : list Row.t) :
  sortsByScore input (fun key dir => sortBy (compareRows getTime key dir) input).
Proof.
  apply (sortsByScore_intro scoreKey).
  - intros dir. reflexivity.
  - intros r _. apply scoreKey_number.
  - auto.
Qed.

Lemma sentinel_sortsByTime (getTime : Clock) (input : list Row.t) :
  validTimes getTime input ->
  sortsByTime getTime input (fun key dir => sortBy (compareRows getTime key dir) input).
Proof.
  intros V.
  assert (K : forall r, In r input -> falsy (Row.triaged_at r) = false ->
                        exists z, timeKey getTime r = Fin z).
  { intros r Hr Hf. destruct (timeKey_present getTime r Hf) as (s & Hs & He & ->).
    exact (V r s Hr Hs He). }
  apply (sortsByTime_intro getTime (timeKey getTime)).
  - intros dir. reflexivity.
  - intros r Hr. destruct (falsy (Row.triaged_at r)) eqn:F.
    + rewrite (timeKey_missing _ _ F). reflexivity.
    + destruct (K r Hr F) as [z ->]. reflexivity.
  - auto.
  - exact K.
Qed.

Lemma validTimes_incl (getTime : Clock) (rows input : list Row.t) :
  (forall r, In r input -> In r rows) -> validTimes getTime rows -> validTimes getTime input.
Proof. intros I V r s Hr. apply V. apply I. exact Hr. Qed.

(** The comparator of the compact page does the same on the domain where
    its sentinels are below every value present. *)
Lemma Compact_sortsByScore (getTime : Clock) (input : list Row.t) :
  (forall r x, In r input -> Row.lead_score r = Some x -> 0 <= x) ->
  sortsByScore input (fun key dir => sortBy (Compact.compareRows getTime key dir) input).
Proof.
  intros D.
  apply (sortsByScore_intro (Compact.sortValue getTime SortKey_lead_score)).
  - intros dir. destruct dir; reflexivity.
  - intros r _. reflexivity.
  - intros a b Ha Hb. unfold Compact.sortValue, scoreKey.
    pose proof (D a) as Da. pose proof (D b) as Db.
    destruct (Row.lead_score a) as [x|], (Row.lead_score b) as [y|]; cbn; try tauto.
    specialize (Da x Ha eq_refl). lia.
Qed.

Lemma Compact_sortsByTime (getTime : Clock) (input : list Row.t) :
  (forall r s, In r input -> Row.triaged_at r = Some s ->
               isEmpty s = false /\ exists z, getTime s = Fin z /\ 0 < z) ->
  sortsByTime getTime input (fun key dir => sortBy (Compact.compareRows getTime key dir) input).
Proof.
  intros D.
  assert (V : forall r, In r input ->
                (Row.triaged_at r = None /\ timeKey getTime r = NegInf /\
                 Compact.sortValue getTime SortKey_triaged_at r = Fin 0) \/
                (exists z, 0 < z /\ falsy (Row.triaged_at r) = false /\
                           timeKey getTime r = Fin z /\
                           Compact.sortValue getTime SortKey_triaged_at r = Fin z)).
  { intros r Hr. unfold timeKey, truthyOr, Compact.sortValue, Compact.timeOf, falsy.
    pose proof (D r) as Dr.
    destruct (Row.triaged_at r) as [s|]; [|left; auto].
    destruct (Dr s Hr eq_refl) as (E & z & G & Z). rewrite E, G.
    right. exists z. auto. }
  apply (sortsByTime_intro getTime (Compact.sortValue getTime SortKey_triaged_at)).
  - intros dir. destruct dir; reflexivity.
  - intros r Hr. destruct (V r Hr) as [(_ & _ & ->)|(z & _ & _ & _ & ->)]; reflexivity.
  - intros a b Ha Hb.
    destruct (V a Ha) as [(_ & -> & ->)|(x & Px & _ & -> & ->)];
      destruct (V b Hb) as [(_ & -> & ->)|(y & Py & _ & -> & ->)]; cbn; try tauto; lia.
  - intros r Hr F. destruct (V r Hr) as [(N & _)|(z & _ & _ & K & _)].
    + rewrite N in F. discriminate.
    + exists z. exact K.
Qed.

(** C8, as the code has it.  On the two pages that sort with the negative
    infinity sentinel, the sort of the searched rows treats a missing score
    as negative infinity, for every list of rows: the output is the input
    rearranged in key order; descending, a row of score 90 stands before a
    row of score 40 and rows without a score stand last.  When the time
    stamps present are dates, it treats a missing triage time the same
    way: rows without one stand first ascending and last descending.  The
    compact page compares with the sentinels -1 and the epoch; there the
    same holds for rows whose scores are not negative and whose time stamps
    are dates after the epoch. *)
Theorem sort_places_missing_values :
  (forall getTime rows search,
      let input := Sorted.searched rows search in
      sortsByScore input (Sorted.filtered getTime rows search) /\
      (validTimes getTime rows ->
       sortsByTime getTime input (Sorted.filtered getTime rows search)))
  /\
  (forall getTime rows search,
      let input := Status.searched rows search in
      sortsByScore input (Status.filtered getTime rows search) /\
      (validTimes getTime rows ->
       sortsByTime getTime input (Status.filtered getTime rows search)))
  /\
  (forall getTime rows search,
      compactDomain getTime rows ->
      let input := searchRows Compact.haystack (toLowerCase search) rows in
      sortsByScore input (Compact.filtered getTime rows search) /\
      sortsByTime getTime input (Compact.filtered getTime rows search)).
Proof.
  split; [|split].
  - intros getTime rows search input. split.
    + exact (sentinel_sortsByScore getTime input).
    + intros V. apply (sentinel_sortsByTime getTime input).
      apply (validTimes_incl getTime rows); [|exact V].
      intros r. apply searchRows_incl.
  - intros getTime rows search input. split.
    + exact (sentinel_sortsByScore getTime input).
    + intros V. apply (sentinel_sortsByTime getTime input).
      apply (validTimes_incl getTime rows); [|exact V].
      intros r. apply searchRows_incl.
  - intros getTime rows search [Ds Dt] input.
    assert (I : forall r, In r input -> In r rows) by (intros r; apply searchRows_incl).
    split.
    + apply (Compact_sortsByScore getTime input). intros r x Hr. apply Ds. auto.
    + apply (Compact_sortsByTime getTime input). intros r s Hr. apply Dt. auto.
Qed.

Lemma sampleRows_validTimes : validTimes sampleClock sampleRows.
Proof.
  intros r s [<-|[<-|[<-|[]]]] H _; inversion H; subst; eexists; reflexivity.
Defined.

Lemma sampleRows_compactDomain : compactDomain sampleClock sampleRows.
Proof.
  split.
  - intros r x [<-|[<-|[<-|[]]]] H; inversion H; subst; lia.
  - intros r s [<-|[<-|[<-|[]]]] H; inversion H; subst;
      (split; [reflexivity | eexists; split; [reflexivity | lia]]).
Defined.

Lemma sort_places_missing_values_witness :
  (precedes leadA leadB
     (Sorted.filtered sampleClock sampleRows EmptyString SortKey_lead_score desc) /\
   precedes leadA leadC
     (Sorted.filtered sampleClock sampleRows EmptyString SortKey_lead_score desc)) /\
  (precedes leadC leadB
     (Status.filtered sampleClock sampleRows EmptyString SortKey_triaged_at asc) /\
   precedes leadB leadC
     (Status.filtered sampleClock sampleRows EmptyString SortKey_triaged_at desc)) /\
  (precedes leadA leadC
     (Compact.filtered sampleClock sampleRows EmptyString SortKey_lead_score desc) /\
   precedes leadC leadA
     (Compact.filtered sampleClock sampleRows EmptyString SortKey_triaged_at asc)).
Proof.
  destruct sort_places_missing_values as (S1 & S2 & S3).
  destruct (S1 sampleClock sampleRows EmptyString) as ((_ & _ & S90 & Slast) & _).
  destruct (S2 sampleClock sampleRows EmptyString) as (_ & T2).
  destruct (T2 sampleRows_validTimes) as (_ & _ & Tfirst).
  destruct (S3 sampleClock sampleRows EmptyString sampleRows_compactDomain)
    as ((_ & _ & _ & Clast) & (_ & _ & Cfirst)).
  split; [|split].
  - split.
    + apply S90; cbn; auto.
    + apply (Slast leadA leadC 90); cbn; auto.
  - apply (Tfirst leadC leadB); cbn; auto.
  - split.
    + apply (Clast leadA leadC 90); cbn; auto.
    + apply (Cfirst leadC leadA); cbn; auto.
Defined.

(** C8, as it is worded, fails on the compact page: sorted by score,
    descending, a row without a score stands before a row of score -5,
    because the page compares a missing score as -1. *)
Lemma compact_sort_sentinel_counterexample :
  Row.lead_score leadC = None /\ Row.lead_score leadD = Some (-5) /\
  Compact.filtered sampleClock [leadC; leadD] EmptyString SortKey_lead_score desc
    = [leadC; leadD] /\
  Compact.filtered sampleClock [leadD; leadC] EmptyString SortKey_lead_score desc
    = [leadC; leadD] /\
  ~ precedes leadD leadC
      (Compact.filtered sampleClock [leadD; leadC] EmptyString SortKey_lead_score desc).
Proof.
  repeat split; try reflexivity.
  intros (l1 & l2 & l3 & H).
  change (Compact.filtered sampleClock [leadD; leadC] EmptyString SortKey_lead_score desc)
    with [leadC; leadD] in H.
  assert (L := f_equal (@List.length Row.t) H).
  rewrite length_app in L. cbn [List.length] in L.
  rewrite length_app in L. cbn [List.length] in L.
  destruct l1; [|cbn [List.length] in L; lia].
  destruct l2; [|cbn [List.length] in L; lia].
  cbn in H. discriminate H.
Qed.

(** ** Runs on the sample data *)

(** The scenario of the specification: 120 matching rows in the view give
    50 rows and the count 120 on page 1, and the 20 rows left on page 3. *)
Example paging_scenario :
  let fetch page :=
    outcome remoteMany
      (fst (Sorted.fetchPagedFromViewOrArticles envReady
              (Basic.Params.mk 70 "fatal" "all" page) _client)) in
  fetch 1 = Returned (Fetched.mk (firstn 50 manyLeads) 120 v_triage_live) /\
  fetch 3 = Returned (Fetched.mk (skipn 100 manyLeads) 120 v_triage_live) /\
  List.length (skipn 100 manyLeads) = 20%nat.
Proof. repeat split; vm_compute; reflexivity. Qed.

(** A load that falls back to the base table shows its rows and no error. *)
Example load_after_fallback :
  outcome remoteNoView (fst (Sorted.load envReady sampleState _client)) =
  Returned (Sorted.State.mk [leadA] 1 false None (Some articles) 70 "fatal" "all"
                            EmptyString 1 true SortKey_triaged_at desc).
Proof. reflexivity. Qed.

(* ================================================================== *)
(** * Further properties of the code *)

(** ** The client cell *)

(** X1.  [getSupabase] keeps one client: once a call has returned a
    client, every later call made in the browser returns that same client
    and leaves the cell as it is, whatever the environment variables have
    become. *)
Theorem getSupabase_keeps_one_client :
  forall env env' cell c,
    fst (getSupabase env cell) = Some c ->
    hasWindow env' = true ->
    getSupabase env' (snd (getSupabase env cell)) = (Some c, Some c).
Proof.
  intros env env' cell c H W'.
  rewrite (getSupabase_some _ _ _ H). cbn [snd].
  unfold getSupabase. rewrite W'. reflexivity.
Qed.

Lemma getSupabase_keeps_one_client_witness :
  getSupabase envNoConfig (snd (getSupabase envReady _client)) =
  (Some sampleClient, Some sampleClient).
Proof.
  apply (getSupabase_keeps_one_client envReady envNoConfig _client sampleClient);
    reflexivity.
Defined.

(** ** The fetchers, whatever the remote service answers *)

Lemma discipline_of_run {A : Type} (remote : Remote) (qa qb : Query) (prog : Prog A) :
  qb <> qa ->
  (Response.error (remote qa) = None -> exists a, run remote prog = ([qa], Returned a)) ->
  (forall e1, Response.error (remote qa) = Some e1 ->
              Response.error (remote qb) = None ->
              exists a, run remote prog = ([qa; qb], Returned a)) ->
  (forall e1 e2, Response.error (remote qa) = Some e1 ->
                 Response.error (remote qb) = Some e2 ->
                 exists msg, run remote prog = ([qa; qb], Thrown msg)) ->
  fallbackDiscipline remote qa qb prog.
Proof.
  intros N H0 H1 H2. unfold fallbackDiscipline, issued, outcome.
  destruct (Response.error (remote qa)) as [e1|] eqn:Ea;
    [destruct (Response.error (remote qb)) as [e2|] eqn:Eb|].
  - destruct (H2 e1 e2 eq_refl eq_refl) as [msg ->]. cbn [fst snd].
    split; [right; reflexivity|]. split.
    + split; [intros _; eexists; reflexivity | intros _; right; left; reflexivity].
    + split; [intros _; split; eexists; reflexivity | intros _; eexists; reflexivity].
  - destruct (H1 e1 eq_refl eq_refl) as [a ->]. cbn [fst snd].
    split; [right; reflexivity|]. split.
    + split; [intros _; eexists; reflexivity | intros _; right; left; reflexivity].
    + split; [intros [msg H]; discriminate | intros [_ [e H]]; discriminate].
  - destruct (H0 eq_refl) as [a ->]. cbn [fst snd].
    split; [left; reflexivity|]. split.
    + split; [intros [H|[]]; congruence | intros [e H]; discriminate].
    + split; [intros [msg H]; discriminate | intros [[e H] _]; discriminate].
Qed.

Lemma Basic_discipline (supabase : SupabaseClient) (params : Basic.Params.t)
  (remote : Remote) :
  fallbackDiscipline remote (Basic.q1 supabase params) (Basic.q2 supabase params)
                     (Basic.fetchPagedFromViewOrArticles supabase params).
Proof.
  apply discipline_of_run.
  - intros E. pose proof (Basic_fallbackOf supabase params) as (Ha & Hb & _).
    rewrite E, Ha in Hb. discriminate.
  - intros H. rewrite Basic_run. cbv zeta. rewrite H. eexists. reflexivity.
  - intros e1 H1 H2. rewrite Basic_run. cbv zeta. rewrite H1, H2. eexists. reflexivity.
  - intros e1 e2 H1 H2. rewrite Basic_run. cbv zeta. rewrite H1, H2. eexists. reflexivity.
Qed.

(** X2.  The fetchers with the fallback, whatever the remote service
    answers: with a client, a run issues the view query first and at most
    one more query, the base-table one, which it issues exactly when the
    view query fails, and it throws exactly when both queries fail; with no
    client (the two pages that call [getSupabase]) it issues nothing and
    returns the empty result. *)
Theorem fetch_throws_only_when_both_fail :
  (forall supabase params remote,
      fallbackDiscipline remote (Basic.q1 supabase params) (Basic.q2 supabase params)
                         (Basic.fetchPagedFromViewOrArticles supabase params))
  /\
  (forall env cell params remote,
      let prog := fst (Sorted.fetchPagedFromViewOrArticles env params cell) in
      match fst (getSupabase env cell) with
      | Some supabase =>
          fallbackDiscipline remote (Basic.q1 supabase params) (Basic.q2 supabase params)
                             prog
      | None => run remote prog = ([], Returned (Fetched.mk [] 0 v_triage_live))
      end)
  /\
  (forall env cell params remote,
      let prog := fst (Status.fetchPagedFromViewOrArticles env params cell) in
      match fst (getSupabase env cell) with
      | Some supabase =>
          fallbackDiscipline remote (Status.q1 supabase params) (Status.q2 supabase params)
                             prog
      | None => run remote prog = ([], Returned (Fetched.mk [] 0 v_triage_live))
      end).
Proof.
  split; [|split].
  - intros supabase params remote. apply Basic_discipline.
  - intros env cell params remote prog. unfold prog.
    destruct (fst (getSupabase env cell)) as [supabase|] eqn:G.
    + rewrite (Sorted_fetch_client _ _ _ _ G). cbn [fst]. apply Basic_discipline.
    + unfold Sorted.fetchPagedFromViewOrArticles.
      destruct (getSupabase env cell) as [c cell']. cbn [fst] in G. subst c. reflexivity.
  - intros env cell params remote prog. unfold prog.
    destruct (fst (getSupabase env cell)) as [supabase|] eqn:G.
    + pose proof (Status_run env params cell supabase remote G) as R. cbv zeta in R.
      apply discipline_of_run.
      * intros E. pose proof (Status_fallbackOf supabase params) as (Ha & Hb & _).
        rewrite E, Ha in Hb. discriminate.
      * intros H. rewrite R, H. eexists. reflexivity.
      * intros e1 H1 H2. rewrite R, H1, H2. eexists. reflexivity.
      * intros e1 e2 H1 H2. rewrite R, H1, H2. eexists. reflexivity.
    + unfold Status.fetchPagedFromViewOrArticles.
      destruct (getSupabase env cell) as [c cell']. cbn [fst] in G. subst c. reflexivity.
Qed.

(** X3.  The fetcher of the compact page never throws and never asks the
    base table: it issues at most one query, on the view.  An answer with
    an error and no data gives the same result as a missing client, the
    empty row list with the count zero. *)
Theorem compact_fetch_swallows_errors :
  forall env cell params remote,
    let prog := fst (Compact.fetchPaged env params cell) in
    (exists res, outcome remote prog = Returned res) /\
    (List.length (issued remote prog) <= 1)%nat /\
    (forall q, In q (issued remote prog) -> q_from q = "v_triage_live") /\
    (forall supabase e,
        fst (getSupabase env cell) = Some supabase ->
        remote (Compact.q supabase params) = Response.mk (Some e) None None ->
        run remote prog =
          ([Compact.q supabase params], Returned (Compact.Fetched.mk [] 0))).
Proof.
  intros env cell params remote prog. unfold prog, Compact.fetchPaged, outcome, issued.
  destruct (getSupabase env cell) as [[c|] cell'] eqn:G; cbn [fst snd run].
  - split; [eexists; reflexivity|]. split; [cbn; lia|]. split.
    + intros q [<-|[]]. destruct params as [m sev ct stat pg]. unfold Compact.q.
      cbn [Status.Params.minScore Status.Params.severity Status.Params.caseType
           Status.Params.status].
      split_selectors; reflexivity.
    + intros supabase e H R. injection H as <-. rewrite R. reflexivity.
  - split; [eexists; reflexivity|]. split; [cbn; lia|]. split.
    + intros q [].
    + intros supabase e H. discriminate.
Qed.

Lemma compact_fetch_swallows_errors_witness :
  run remoteViewError (fst (Compact.fetchPaged envReady sampleStatusParams _client)) =
  ([Compact.q sampleClient sampleStatusParams], Returned (Compact.Fetched.mk [] 0)).
Proof.
  pose proof (compact_fetch_swallows_errors envReady _client sampleStatusParams
                remoteViewError) as (_ & _ & _ & H).
  apply (H sampleClient (mkError "permission denied")); reflexivity.
Defined.

(** X4.  The query of the compact page is the view query of the page with
    the status filter, selecting all columns: same resource, predicates,
    order and range. *)
Theorem compact_query_is_the_view_query :
  forall supabase params,
    Compact.q supabase params =
      Builder.select "*" (Some "exact") (Status.q1 supabase params) /\
    q_filters (Compact.q supabase params) = statusPredicates params /\
    q_range (Compact.q supabase params) =
      Some ((Status.Params.page params - 1) * 50, (Status.Params.page params - 1) * 50 + 49).
Proof.
  intros supabase params.
  assert (E : Compact.q supabase params =
              Builder.select "*" (Some "exact") (Status.q1 supabase params)).
  { destruct params as [m sev ct stat pg]. unfold Compact.q, Status.q1.
    cbn [Status.Params.minScore Status.Params.severity Status.Params.caseType
         Status.Params.status Status.Params.page].
    unfold Status.toIdx, Status.fromIdx.
    cbn [Status.Params.page].
    split_selectors; reflexivity. }
  split; [exact E|]. rewrite E. cbn [Builder.select q_filters q_range].
  pose proof (Status_fallbackOf supabase params) as (_ & _ & F & _).
  split; [exact F|].
  rewrite Status_q1_range. unfold Status.toIdx, Status.fromIdx, PAGE_SIZE.
  do 2 f_equal; lia.
Qed.

(** ** The pager *)

Lemma ceilPages_spec (c : Z) : 50 * (ceilPages c - 1) < c <= 50 * ceilPages c.
Proof.
  unfold ceilPages, PAGE_SIZE.
  pose proof (Z.div_mod (- c) 50 ltac:(lia)) as E.
  pose proof (Z.mod_pos_bound (- c) 50 ltac:(lia)) as B.
  lia.
Qed.

(** X5.  The number of pages is at least one; for a positive count it is
    the least number of pages of 50 that hold the count, and for a count
    of zero (or below) it is one. *)
Theorem totalPages_bounds :
  forall totalCount,
    1 <= totalPages totalCount /\
    (0 < totalCount ->
     50 * (totalPages totalCount - 1) < totalCount <= 50 * totalPages totalCount) /\
    (totalCount <= 0 -> totalPages totalCount = 1).
Proof.
  intros c. unfold totalPages. pose proof (ceilPages_spec c) as S. lia.
Qed.

Lemma totalPages_bounds_witness :
  50 * (totalPages 120 - 1) < 120 <= 50 * totalPages 120.
Proof.
  apply (totalPages_bounds 120). lia.
Defined.

(** X6.  The ranges the fetcher asks for tile the matching rows: the range
    of page [p + 1] starts right after the range of page [p]; every row
    index below the count lies in the range of exactly one page, and that
    page is among those the pager offers; the last page offered is not
    empty when there is a row at all. *)
Theorem page_ranges_tile_the_rows :
  forall minScore severity caseType totalCount,
    let lo p := Basic.fromIdx (Basic.Params.mk minScore severity caseType p) in
    let hi p := Basic.toIdx (Basic.Params.mk minScore severity caseType p) in
    (forall p, lo (p + 1) = hi p + 1) /\
    (forall i, 0 <= i < totalCount ->
               exists p, pageInRange p totalCount /\ lo p <= i <= hi p /\
                         forall p', lo p' <= i <= hi p' -> p' = p) /\
    (0 < totalCount -> lo (totalPages totalCount) < totalCount).
Proof.
  intros m sev ct c lo hi. unfold lo, hi, Basic.toIdx, Basic.fromIdx, PAGE_SIZE.
  cbn [Basic.Params.page].
  pose proof (totalPages_bounds c) as (T1 & T2 & _).
  split; [intros p; lia|]. split.
  - intros i Hi. exists (i / 50 + 1).
    pose proof (Z.div_mod i 50 ltac:(lia)) as E.
    pose proof (Z.mod_pos_bound i 50 ltac:(lia)) as B.
    unfold pageInRange. specialize (T2 ltac:(lia)).
    split; [lia|]. split; [lia|]. intros p' Hp'. lia.
  - intros Hc. specialize (T2 Hc). lia.
Qed.

Lemma page_ranges_tile_the_rows_witness :
  exists p, pageInRange p 120 /\
            Basic.fromIdx (Basic.Params.mk 70 "fatal" "all" p) <= 119
              <= Basic.toIdx (Basic.Params.mk 70 "fatal" "all" p).
Proof.
  pose proof (page_ranges_tile_the_rows 70 "fatal" "all" 120) as (_ & H & _).
  destruct (H 119 ltac:(lia)) as (p & Hp & Hr & _).
  exists p. split; assumption.
Defined.

(** X7.  The pager keeps the page number among the pages it offers: the
    previous and next buttons do, and the page box puts any input there,
    a zero or an input that is no number giving page one.  The previous
    button stops at the first page and the next button at the last. *)
Theorem pager_keeps_page_in_range :
  forall totalCount,
    (forall typed, pageInRange (jumpToPage (totalPages totalCount) typed) totalCount) /\
    jumpToPage (totalPages totalCount) None = 1 /\
    jumpToPage (totalPages totalCount) (Some 0) = 1 /\
    (forall page,
        pageInRange page totalCount ->
        pageInRange (prevPage page) totalCount /\
        pageInRange (nextPage (totalPages totalCount) page) totalCount /\
        jumpToPage (totalPages totalCount) (Some page) = page /\
        (page = 1 -> prevPage page = 1) /\
        (1 < page -> prevPage page = page - 1) /\
        (page = totalPages totalCount -> nextPage (totalPages totalCount) page = page) /\
        (page < totalPages totalCount ->
         nextPage (totalPages totalCount) page = page + 1)).
Proof.
  intros c. pose proof (totalPages_bounds c) as (T1 & _).
  unfold pageInRange, jumpToPage, prevPage, nextPage.
  split; [|split; [|split]].
  - intros [n|]; [destruct (n =? 0)|]; lia.
  - cbn. lia.
  - cbn. lia.
  - intros page Hp. destruct (page =? 0) eqn:E; [apply Z.eqb_eq in E; lia|].
    repeat split; lia.
Qed.

Lemma pager_keeps_page_in_range_witness :
  pageInRange (prevPage 3) 120 /\ pageInRange (nextPage (totalPages 120) 3) 120 /\
  nextPage (totalPages 120) 3 = 3.
Proof.
  pose proof (pager_keeps_page_in_range 120) as (_ & _ & _ & H).
  assert (R : pageInRange 3 120) by (unfold pageInRange; vm_compute; split; discriminate).
  destruct (H 3 R) as (P & N & _ & _ & _ & L & _).
  split; [exact P|]. split; [exact N|]. apply L. reflexivity.
Defined.

(** X8.  The "Showing from-to of total" line: on a page the pager offers
    and with a positive count, it names a range of at least one and at
    most 50 rows inside the count, the rows of the range the fetcher asked
    for (counted from one); with a count of zero it shows 0-0 on page
    one. *)
Theorem shown_range_is_the_fetched_range :
  forall minScore severity caseType page totalCount,
    let params := Basic.Params.mk minScore severity caseType page in
    (pageInRange page totalCount -> 0 < totalCount ->
     1 <= fromShown page totalCount <= toShown page totalCount /\
     toShown page totalCount <= totalCount /\
     toShown page totalCount - fromShown page totalCount + 1 <= 50 /\
     fromShown page totalCount = Basic.fromIdx params + 1 /\
     toShown page totalCount = Z.min (Basic.toIdx params + 1) totalCount) /\
    (totalCount = 0 -> page = 1 ->
     fromShown page totalCount = 0 /\ toShown page totalCount = 0).
Proof.
  intros m sev ct page c params.
  unfold fromShown, toShown, params, Basic.toIdx, Basic.fromIdx, PAGE_SIZE, pageInRange.
  cbn [Basic.Params.page]. split.
  - intros Hp Hc. pose proof (totalPages_bounds c) as (_ & T2 & _). specialize (T2 Hc).
    destruct (c =? 0) eqn:E; [apply Z.eqb_eq in E; lia|].
    repeat split; lia.
  - intros -> ->. cbn. split; reflexivity.
Qed.

Lemma shown_range_is_the_fetched_range_witness :
  fromShown 3 120 = 101 /\ toShown 3 120 = 120.
Proof.
  pose proof (shown_range_is_the_fetched_range 70 "fatal" "all" 3 120) as (H & _).
  assert (R : pageInRange 3 120) by (unfold pageInRange; vm_compute; split; discriminate).
  destruct (H R ltac:(lia)) as (_ & _ & _ & F & T).
  split; [exact F | exact T].
Defined.

(** ** The load routine, whatever the remote service answers *)

(** The two ways a load settles: with the result of the fetch, or with the
    message of the error it threw. *)
Lemma Sorted_load_cases (env : Env) (st : Sorted.State.t) (cell : ClientCell)
  (remote : Remote) :
  (exists res,
      outcome remote (fst (Sorted.load env st cell)) =
      Returned (Sorted.State.mk (Fetched.data res) (Fetched.count res) false None
                  (Some (Fetched.source res))
                  (Sorted.State.minScore st) (Sorted.State.severity st)
                  (Sorted.State.caseType st) (Sorted.State.search st)
                  (if totalPages (Fetched.count res) <? Sorted.State.page st
                   then 1 else Sorted.State.page st)
                  (Sorted.State.autoRefresh st) (Sorted.State.sortKey st)
                  (Sorted.State.sortDir st))) \/
  (exists msg,
      outcome remote (fst (Sorted.load env st cell)) =
      Returned (Sorted.State.mk [] 0 false (Some msg) None
                  (Sorted.State.minScore st) (Sorted.State.severity st)
                  (Sorted.State.caseType st) (Sorted.State.search st)
                  (Sorted.State.page st)
                  (Sorted.State.autoRefresh st) (Sorted.State.sortKey st)
                  (Sorted.State.sortDir st))).
Proof.
  unfold outcome, Sorted.load.
  destruct (Sorted.fetchPagedFromViewOrArticles env _ cell) as [prog cell'].
  cbn [fst]. rewrite run_tryCatch. cbn [snd].
  destruct (snd (run remote prog)) as [res|msg].
  - left. exists res. unfold totalPages.
    destruct (Z.max 1 (ceilPages (Fetched.count res)) <? Sorted.State.page st); reflexivity.
  - right. exists msg. reflexivity.
Qed.

Lemma Status_load_cases (env : Env) (st : Status.State.t) (cell : ClientCell)
  (remote : Remote) :
  (exists res,
      outcome remote (fst (Status.load env st cell)) =
      Returned (Status.State.mk (Fetched.data res) (Fetched.count res) false None
                  (Some (Fetched.source res))
                  (Status.State.minScore st) (Status.State.severity st)
                  (Status.State.caseType st) (Status.State.status st)
                  (Status.State.searchInput st) (Status.State.search st)
                  (if totalPages (Fetched.count res) <? Status.State.page st
                   then 1 else Status.State.page st)
                  (Status.State.autoRefresh st) (Status.State.sortKey st)
                  (Status.State.sortDir st) (Status.State.expandedId st))) \/
  (exists msg,
      outcome remote (fst (Status.load env st cell)) =
      Returned (Status.State.mk [] 0 false (Some msg) None
                  (Status.State.minScore st) (Status.State.severity st)
                  (Status.State.caseType st) (Status.State.status st)
                  (Status.State.searchInput st) (Status.State.search st)
                  (Status.State.page st)
                  (Status.State.autoRefresh st) (Status.State.sortKey st)
                  (Status.State.sortDir st) (Status.State.expandedId st))).
Proof.
  unfold outcome, Status.load.
  destruct (Status.fetchPagedFromViewOrArticles env _ cell) as [prog cell'].
  cbn [fst]. rewrite run_tryCatch. cbn [snd].
  destruct (snd (run remote prog)) as [res|msg].
  - left. exists res. unfold totalPages.
    destruct (Z.max 1 (ceilPages (Fetched.count res)) <? Status.State.page st); reflexivity.
  - right. exists msg. reflexivity.
Qed.

(** X9.  A load always settles and never throws: whatever the remote
    service answers, it ends with the loading flag cleared and with the
    filter selections, the search text, the sort settings and the
    auto-refresh flag it started with; the page number is kept or set back
    to one.  In the end either there is no error and a source tag, or there
    is an error message, no source tag, no rows, a count of zero and the
    page number unchanged.  For the first two pages of [part_000]. *)
Theorem load_always_settles :
  (forall env st cell remote,
      exists st',
        outcome remote (fst (Sorted.load env st cell)) = Returned st' /\
        Sorted.State.loading st' = false /\
        Sorted.State.minScore st' = Sorted.State.minScore st /\
        Sorted.State.severity st' = Sorted.State.severity st /\
        Sorted.State.caseType st' = Sorted.State.caseType st /\
        Sorted.State.search st' = Sorted.State.search st /\
        Sorted.State.autoRefresh st' = Sorted.State.autoRefresh st /\
        Sorted.State.sortKey st' = Sorted.State.sortKey st /\
        Sorted.State.sortDir st' = Sorted.State.sortDir st /\
        (Sorted.State.page st' = Sorted.State.page st \/ Sorted.State.page st' = 1) /\
        ((Sorted.State.err st' = None /\ exists src, Sorted.State.source st' = Some src) \/
         (exists msg, Sorted.State.err st' = Some msg) /\
         Sorted.State.source st' = None /\ Sorted.State.rows st' = [] /\
         Sorted.State.totalCount st' = 0 /\
         Sorted.State.page st' = Sorted.State.page st))
  /\
  (forall env st cell remote,
      exists st',
        outcome remote (fst (Status.load env st cell)) = Returned st' /\
        Status.State.loading st' = false /\
        Status.State.minScore st' = Status.State.minScore st /\
        Status.State.severity st' = Status.State.severity st /\
        Status.State.caseType st' = Status.State.caseType st /\
        Status.State.status st' = Status.State.status st /\
        Status.State.searchInput st' = Status.State.searchInput st /\
        Status.State.search st' = Status.State.search st /\
        Status.State.autoRefresh st' = Status.State.autoRefresh st /\
        Status.State.sortKey st' = Status.State.sortKey st /\
        Status.State.sortDir st' = Status.State.sortDir st /\
        Status.State.expandedId st' = Status.State.expandedId st /\
        (Status.State.page st' = Status.State.page st \/ Status.State.page st' = 1) /\
        ((Status.State.err st' = None /\ exists src, Status.State.source st' = Some src) \/
         (exists msg, Status.State.err st' = Some msg) /\
         Status.State.source st' = None /\ Status.State.rows st' = [] /\
         Status.State.totalCount st' = 0 /\
         Status.State.page st' = Status.State.page st)).
Proof.
  split; intros env st cell remote.
  - destruct (Sorted_load_cases env st cell remote) as [[res H]|[msg H]];
      eexists; (split; [exact H|]); cbn.
    + repeat (split; [reflexivity|]). split.
      * destruct (_ <? _); auto.
      * left. split; [reflexivity | eexists; reflexivity].
    + repeat (split; [reflexivity|]). split; [left; reflexivity|].
      right. repeat split. eexists; reflexivity.
  - destruct (Status_load_cases env st cell remote) as [[res H]|[msg H]];
      eexists; (split; [exact H|]); cbn.
    + repeat (split; [reflexivity|]). split.
      * destruct (_ <? _); auto.
      * left. split; [reflexivity | eexists; reflexivity].
    + repeat (split; [reflexivity|]). split; [left; reflexivity|].
      right. repeat split. eexists; reflexivity.
Qed.



(** X11.  With the configuration missing, a load issues no query and shows
    no rows, a count of zero and no error; it tags the source as
    [v_triage_live] although nothing was fetched, and a page number above
    one is set back to one. *)
Theorem load_without_config :
  forall env st remote,
    falsy (NEXT_PUBLIC_SUPABASE_URL env) || falsy (NEXT_PUBLIC_SUPABASE_ANON_KEY env) = true ->
    run remote (fst (Sorted.load env st _client)) =
    ([],
     Returned (Sorted.State.mk [] 0 false None (Some v_triage_live)
                 (Sorted.State.minScore st) (Sorted.State.severity st)
                 (Sorted.State.caseType st) (Sorted.State.search st)
                 (Z.min (Sorted.State.page st) 1)
                 (Sorted.State.autoRefresh st) (Sorted.State.sortKey st)
                 (Sorted.State.sortDir st))).
Proof.
  intros env st remote H. unfold Sorted.load, Sorted.fetchPagedFromViewOrArticles, _client.
  rewrite (getSupabase_no_config env H). cbn.
  destruct (1 <? Sorted.State.page st) eqn:E.
  - apply Z.ltb_lt in E. rewrite Z.min_r by lia. reflexivity.
  - apply Z.ltb_ge in E. rewrite Z.min_l by lia. reflexivity.
Qed.

Lemma load_without_config_witness :
  run remoteBoth (fst (Sorted.load envNoConfig sampleState _client)) =
  ([],
   Returned (Sorted.State.mk [] 0 false None (Some v_triage_live) 70 "fatal" "all"
               EmptyString 1 true SortKey_triaged_at desc)).
Proof.
  apply (load_without_config envNoConfig sampleState remoteBoth). reflexivity.
Defined.

(** ** The sort buttons *)



(** ** The badges *)

(** X13.  The colour of the score badge grows with the score: a higher
    score never gets a milder badge, a missing score gets the mildest, and
    every score from 70 up (the threshold the pages start with) gets one of
    the two strongest. *)
Theorem scoreKind_is_monotone :
  forall a b,
    a <= b ->
    badgeRank (scoreKind (Some a)) <= badgeRank (scoreKind (Some b)) /\
    badgeRank (scoreKind None) <= badgeRank (scoreKind (Some a)) /\
    (70 <= a -> 2 <= badgeRank (scoreKind (Some a))).
Proof.
  intros a b H. unfold scoreKind.
  destruct (85 <=? a) eqn:A1; destruct (70 <=? a) eqn:A2; destruct (50 <=? a) eqn:A3;
    destruct (85 <=? b) eqn:B1; destruct (70 <=? b) eqn:B2; destruct (50 <=? b) eqn:B3;
    cbn; repeat split; intros; lia.
Qed.

Lemma scoreKind_is_monotone_witness :
  badgeRank (scoreKind (Some 60)) <= badgeRank (scoreKind (Some 90)).
Proof.
  apply (scoreKind_is_monotone 60 90). lia.
Defined.

(** X14.  The compact page drops the guard on a missing severity from
    [severityKind]; the function still gives the same badge as the guarded
    one for every input, a missing or empty severity included. *)
Theorem severityKind_guard_is_redundant :
  forall sev, Compact.severityKind sev = severityKind sev.
Proof.
  intros [s|]; [|reflexivity]. unfold Compact.severityKind, severityKind.
  destruct s as [|c s]; reflexivity.
Qed.

(** ** The list of people *)

Lemma append_empty (s : string) : s ++ "" = s.
Proof. induction s as [|c s IH]; cbn; [reflexivity | rewrite IH; reflexivity]. Qed.

(** X15.  [fmtPeople] shows nothing for a missing or empty list and all
    the names, joined by ", ", for up to four names.  For more it shows
    what it shows for the first four, then " +" and the number of names
    left out; names after the fourth matter by their number alone. *)
Theorem fmtPeople_shows_four_names :
  fmtPeople None = "" /\ fmtPeople (Some []) = "" /\
  (forall p, (List.length p <= 4)%nat -> fmtPeople (Some p) = join ", " p) /\
  (forall p, (4 < List.length p)%nat ->
             fmtPeople (Some p) =
             fmtPeople (Some (firstn 4 p)) ++ " +" ++ decimal (List.length p - 4)) /\
  (forall p p', firstn 4 p = firstn 4 p' -> List.length p = List.length p' ->
                fmtPeople (Some p) = fmtPeople (Some p')).
Proof.
  assert (A : forall p, (List.length p <= 4)%nat -> fmtPeople (Some p) = join ", " p).
  { intros p H. destruct p as [|x p]; [reflexivity|].
    unfold fmtPeople. rewrite firstn_all2 by exact H.
    replace (4 <? List.length (x :: p))%nat with false
      by (symmetry; apply Nat.ltb_ge; exact H).
    apply append_empty. }
  assert (B : forall p, (4 < List.length p)%nat ->
                        fmtPeople (Some p) =
                        join ", " (firstn 4 p) ++ " +" ++ decimal (List.length p - 4)).
  { intros p H. destruct p as [|x p]; [cbn in H; lia|].
    unfold fmtPeople.
    replace (4 <? List.length (x :: p))%nat with true
      by (symmetry; apply Nat.ltb_lt; exact H).
    reflexivity. }
  split; [reflexivity|]. split; [reflexivity|]. split; [exact A|]. split.
  - intros p H. rewrite (B p H). rewrite (A (firstn 4 p)); [reflexivity|].
    rewrite length_firstn. lia.
  - intros p p' F L.
    destruct (Nat.le_gt_cases (List.length p) 4) as [H|H].
    + rewrite (A p H), (A p') by (rewrite <- L; exact H).
      rewrite <- (firstn_all2 (n := 4) p) by exact H.
      rewrite <- (firstn_all2 (n := 4) p') by (rewrite <- L; exact H).
      rewrite F. reflexivity.
    + rewrite (B p H), (B p') by (rewrite <- L; exact H).
      rewrite F, L. reflexivity.
Qed.

Lemma fmtPeople_shows_four_names_witness :
  fmtPeople (Some ["Ann"; "Bob"]) = "Ann, Bob" /\
  fmtPeople (Some ["Ann"; "Bob"; "Cy"; "Di"; "Ed"; "Flo"]) = "Ann, Bob, Cy, Di +2".
Proof.
  destruct fmtPeople_shows_four_names as (_ & _ & A & B & _).
  split.
  - apply (A ["Ann"; "Bob"]). cbn. lia.
  - apply (B ["Ann"; "Bob"; "Cy"; "Di"; "Ed"; "Flo"]). cbn. lia.
Defined.

(** ** The search text *)

Lemma lowerChar_idem (c : ascii) : lowerChar (lowerChar c) = lowerChar c.
Proof. destruct c as [[] [] [] [] [] [] [] []]; reflexivity. Qed.

Lemma isSpace_lowerChar (c : ascii) : isSpace (lowerChar c) = isSpace c.
Proof. destruct c as [[] [] [] [] [] [] [] []]; reflexivity. Qed.

Lemma toLowerCase_idem (s : string) : toLowerCase (toLowerCase s) = toLowerCase s.
Proof.
  induction s as [|c s IH]; cbn; [reflexivity|]. rewrite lowerChar_idem, IH. reflexivity.
Qed.

Lemma trimStart_toLowerCase (s : string) :
  trimStart (toLowerCase s) = toLowerCase (trimStart s).
Proof.
  induction s as [|c s IH]; cbn; [reflexivity|].
  rewrite isSpace_lowerChar. destruct (isSpace c); [exact IH | reflexivity].
Qed.

Lemma trimEnd_toLowerCase (s : string) :
  trimEnd (toLowerCase s) = toLowerCase (trimEnd s).
Proof.
  induction s as [|c s IH]; cbn; [reflexivity|].
  rewrite isSpace_lowerChar, IH, isEmpty_toLowerCase.
  destruct (isSpace c && isEmpty (trimEnd s)); reflexivity.
Qed.

Lemma trim_toLowerCase (s : string) : trim (toLowerCase s) = toLowerCase (trim s).
Proof. unfold trim. rewrite trimStart_toLowerCase. apply trimEnd_toLowerCase. Qed.

Lemma trimEnd_idem (s : string) : trimEnd (trimEnd s) = trimEnd s.
Proof.
  induction s as [|c s IH]; cbn; [reflexivity|].
  destruct (isSpace c && isEmpty (trimEnd s)) eqn:E; [reflexivity|].
  cbn. rewrite IH, E. reflexivity.
Qed.

Lemma trimStart_trimEnd (s : string) :
  trimStart (trimEnd (trimStart s)) = trimEnd (trimStart s).
Proof.
  induction s as [|c s IH]; cbn; [reflexivity|].
  destruct (isSpace c) eqn:E; [exact IH|].
  cbn. rewrite E. cbn. rewrite E. reflexivity.
Qed.

Lemma trim_idem (s : string) : trim (trim s) = trim s.
Proof.
  unfold trim. rewrite trimStart_trimEnd. apply trimEnd_idem.
Qed.

(** X16.  The search does not depend on the letter case of the search
    text nor on blanks around it: the text in lower case and the trimmed
    text find the same rows as the text itself.  For the two pages that
    trim the search text. *)
Theorem search_ignores_case_and_blanks :
  forall rows search,
    Sorted.searched rows (toLowerCase search) = Sorted.searched rows search /\
    Sorted.searched rows (trim search) = Sorted.searched rows search /\
    Status.searched rows (toLowerCase search) = Status.searched rows search /\
    Status.searched rows (trim search) = Status.searched rows search.
Proof.
  intros rows search. unfold Sorted.searched, Status.searched.
  rewrite trim_toLowerCase, toLowerCase_idem, trim_idem. repeat split; reflexivity.
Qed.

(** X17.  The compact page writes a missing title into the haystack as the
    text "null": every row without a title is found by the search text
    "null", in any sort order. *)
Theorem compact_search_finds_missing_title :
  forall getTime rows r sortKey sortDir,
    In r rows -> Row.title r = None ->
    In r (Compact.filtered getTime rows "null" sortKey sortDir).
Proof.
  intros getTime rows r key dir Hr Ht. unfold Compact.filtered.
  apply (Permutation_in _ (sortBy_perm _ _ _)).
  rewrite searchRows_filter. apply filter_In. split; [exact Hr|].
  apply includes_spec. unfold Compact.haystack, Compact.interpolate. rewrite Ht.
  exists "". eexists. cbn. reflexivity.
Qed.

Lemma compact_search_finds_missing_title_witness :
  In (Row.mk "n" None None None None None None None None None None None)
     (Compact.filtered sampleClock
        [leadA; Row.mk "n" None None None None None None None None None None None]
        "null" SortKey_lead_score desc).
Proof.
  apply compact_search_finds_missing_title.
  - right. left. reflexivity.
  - reflexivity.
Defined.

(** ** The order of equal rows *)


Section Stable.

Variable A : Type.
Variable cmp : A -> A -> jsnum.
Variable P : A -> bool.
Hypothesis P_equal : forall a b, P a = true -> P b = true -> isPositive (cmp a b) = false.



End Stable.




(** ** The status badge *)

(** X19.  The status badge does not depend on the letter case of the
    status: two statuses that are the same in lower case get the same
    badge, and so does a status and its lower case form. *)
Theorem statusKind_ignores_case :
  forall s s',
    Status.statusKind (Some (toLowerCase s)) = Status.statusKind (Some s) /\
    (toLowerCase s = toLowerCase s' ->
     Status.statusKind (Some s) = Status.statusKind (Some s')).
Proof.
  intros s s'.
  assert (L : forall t, Status.statusKind (Some (toLowerCase t)) = Status.statusKind (Some t)).
  { intros t. unfold Status.statusKind.
    rewrite isEmpty_toLowerCase, toLowerCase_idem. reflexivity. }
  split; [apply L|].
  intros E. rewrite <- (L s), <- (L s'), E. reflexivity.
Qed.

Lemma statusKind_ignores_case_witness :
  Status.statusKind (Some "NEW") = Status.statusKind (Some "New").
Proof.
  apply (statusKind_ignores_case "NEW" "New"). reflexivity.
Defined.

(** ** Narrowing a search *)

Lemma append_assoc (a b c : string) : (a ++ b) ++ c = a ++ b ++ c.
Proof. induction a as [|x a IH]; cbn; [reflexivity | rewrite IH; reflexivity]. Qed.

Lemma isSubstring_trans (a b c : string) :
  isSubstring a b -> isSubstring b c -> isSubstring a c.
Proof.
  intros (p1 & q1 & ->) (p2 & q2 & ->).
  exists (p2 ++ p1), (q1 ++ q2). rewrite !append_assoc. reflexivity.
Qed.

Lemma searchRows_narrows (hay : Row.t -> string) (s s' : string) (rows : list Row.t)
  (r : Row.t) :
  isSubstring s s' -> In r (searchRows hay s' rows) -> In r (searchRows hay s rows).
Proof.
  intros Hs. rewrite !searchRows_filter, !filter_In. intros [Hr Hi].
  split; [exact Hr|]. apply includes_spec. apply includes_spec in Hi.
  exact (isSubstring_trans _ _ _ Hs Hi).
Qed.

(** X20.  A longer search text never finds more: when the needle of one
    search text (trimmed, in lower case) occurs in the needle of another,
    every row the second text finds is found by the first.  For the three
    pages that trim the search text. *)
Theorem longer_search_text_narrows :
  forall rows search search' r,
    isSubstring (toLowerCase (trim search)) (toLowerCase (trim search')) ->
    (In r (Basic.filtered rows search') -> In r (Basic.filtered rows search)) /\
    (In r (Sorted.searched rows search') -> In r (Sorted.searched rows search)) /\
    (In r (Status.searched rows search') -> In r (Status.searched rows search)).
Proof.
  intros rows search search' r H.
  unfold Basic.filtered, Sorted.searched, Status.searched.
  repeat split; apply searchRows_narrows; exact H.
Qed.

Lemma longer_search_text_narrows_witness :
  In leadA (Sorted.searched sampleRows " Truck").
Proof.
  assert (S : isSubstring (toLowerCase (trim " Truck")) (toLowerCase (trim "truck cr")))
    by (exists EmptyString, " cr"; reflexivity).
  destruct (longer_search_text_narrows sampleRows " Truck" "truck cr" leadA S)
    as (_ & H & _).
  apply H. vm_compute. left. reflexivity.
Defined.
